(** * Geolocated traceroute: the resolver cache and the hop assembly

  Shallow embedding of [src/sniff_and_trace/trace.py] (class [Trace]):
  [read_from_file], [write_to_file], [get_lat_lon] and [trace].

  Conventions of the embedding.
  - Python [str] is [string] (a text is its sequence of 8-bit characters);
    Python [int] is [Z].
  - [self.ip_locations] (a dict) is a [gmap string _], [self.blacklisted_ips]
    and the local [received] (sets) are [gset string].  Python iterates a
    dict in insertion order; [write_to_file] below iterates in the order of
    [map_to_list].  No statement of this file depends on the order of rows.
  - Python floats are kept abstract: a type [pyfloat] with its [str] and the
    parser behind [float(s)]; the facts needed about them are hypotheses of
    the one theorem that needs them.
  - The outside world (geolocation provider, probe, reverse DNS, the cache
    file) is explicit: a [world] holding the history of external calls and
    log records and the cache file, and an [env] of oracles that answer an
    external call from the history so far.
  - A Python exception is a value of [exn]; a function that lets one
    propagate returns [exn + _].
  - [math.log] returns a double.  A double is a real number, so the result
    is an [R]; which real it is, is a builtin like [str] of a float, and the
    facts needed about it are hypotheses of the one theorem that needs
    them.  [int] of it and the division by 2 are exact. *)

From Stdlib Require Import ZArith Reals Lra Lia List Ascii DecimalString.
From stdpp Require Import gmap strings list.

(** ** Python strings *)

Module Text.

Definition LF : ascii := "010"%char.
Definition CR : ascii := "013"%char.
Definition comma : ascii := ","%char.

(** [s.split(sep)] for a one-character separator. *)
Fixpoint split (sep : ascii) (s : string) : list string :=
  match s with
  | EmptyString => [EmptyString]
  | String c s' =>
      if Ascii.eqb c sep then EmptyString :: split sep s'
      else match split sep s' with
           | [] => [String c EmptyString]
           | p :: ps => String c p :: ps
           end
  end.

(** [f.readline()] on the text that remains: the line with its line feed,
    and the rest. *)
Fixpoint readline (s : string) : string * string :=
  match s with
  | EmptyString => (EmptyString, EmptyString)
  | String c s' =>
      if Ascii.eqb c LF then (String c EmptyString, s')
      else let (l, r) := readline s' in (String c l, r)
  end.

(** [f.readlines()]: every remaining line, each with its line feed. *)
Fixpoint readlines (s : string) : list string :=
  match s with
  | EmptyString => []
  | String c s' =>
      if Ascii.eqb c LF then String c EmptyString :: readlines s'
      else match readlines s' with
           | [] => [String c EmptyString]
           | l :: ls => String c l :: ls
           end
  end.

(** Text mode, [newline=None]: on reading, CR LF and a lone CR become LF. *)
Fixpoint universal_newlines (s : string) : string :=
  match s with
  | EmptyString => EmptyString
  | String c s' =>
      if Ascii.eqb c CR then
        match s' with
        | String c' s'' =>
            if Ascii.eqb c' LF then String LF (universal_newlines s'')
            else String LF (universal_newlines s')
        | EmptyString => String LF EmptyString
        end
      else String c (universal_newlines s')
  end.

(** The white space that [float] strips from the two ends of its argument:
    the characters 9 to 13 and 32, and, of the characters from 128 on, the
    two that are Unicode white space, 133 and 160.  (The separators 28 to
    31, which [str.strip] removes, are left in place by [float].) *)
Definition is_space (c : ascii) : bool :=
  let n := nat_of_ascii c in
  ((9 <=? n) && (n <=? 13)) || (n =? 32) || (n =? 133) || (n =? 160).

(** What [float] does to the two ends of its argument before it parses. *)
Fixpoint lstrip (s : string) : string :=
  match s with
  | EmptyString => EmptyString
  | String c s' => if is_space c then lstrip s' else s
  end.

Fixpoint rstrip (s : string) : string :=
  match s with
  | EmptyString => EmptyString
  | String c s' =>
      match rstrip s' with
      | EmptyString => if is_space c then EmptyString else String c EmptyString
      | r => String c r
      end
  end.

Definition strip (s : string) : string := rstrip (lstrip s).

(** [sub in s] for two strings. *)
Fixpoint contains (sub s : string) : bool :=
  String.prefix sub s ||
  match s with
  | EmptyString => false
  | String _ s' => contains sub s'
  end.

(** [str(n)] for an int. *)
Definition of_int (n : Z) : string := NilZero.string_of_int (Z.to_int n).

(** The characters of a text. *)
Fixpoint chars (s : string) : list ascii :=
  match s with
  | EmptyString => []
  | String c s' => c :: chars s'
  end.

End Text.

(** ** Exceptions and the error monad *)

(** [MathDomainError] is the ValueError that [math.log] raises outside its
    domain; [External] is whatever a collaborator raised. *)
Inductive exn : Type :=
| TypeError
| ValueError
| MathDomainError
| KeyError
| OSError
| External (what : string).

(** [x ← e; k]: the first exception raised is the outcome. *)
Global Instance exn_bind : MBind (sum exn) := λ A B f x,
  match x with
  | inl e => inl e
  | inr a => f a
  end.

(** ** Python values, as [json.loads] and [float] produce them *)

Section Values.

Variable pyfloat : Type.

#[warnings="-register-all"] Inductive pyval : Type :=
  | PyNone
  | PyBool (b : bool)
  | PyInt (n : Z)
  | PyFloat (x : pyfloat)
  | PyStr (s : string)
  | PyList (l : list pyval)
  | PyDict (d : list (string * pyval)).

(** [v == s] for a string literal [s]. *)
Definition eq_str (v : pyval) (s : string) : bool :=
  match v with
  | PyStr t => String.eqb t s
  | _ => false
  end.

(** [v is None]. *)
Definition is_None (v : pyval) : bool :=
  match v with
  | PyNone => true
  | _ => false
  end.

(** The value bound to [key] in a dict given by its items. *)
Fixpoint dict_get (key : string) (d : list (string * pyval)) : option pyval :=
  match d with
  | [] => None
  | (k, v) :: d' => if String.eqb k key then Some v else dict_get key d'
  end.

(** [key in container] for a string [key]: a key of a dict, an element of
    a list, a substring of a string; anything else is not iterable. *)
Definition py_in (key : string) (container : pyval) : exn + bool :=
  match container with
  | PyDict d =>
    inr match dict_get key d with
        | Some _ => true
        | None => false
        end
  | PyList l => inr (existsb (λ v, eq_str v key) l)
  | PyStr s => inr (Text.contains key s)
  | _ => inl TypeError
  end.

(** [container[key]] for a string [key]: only a dict takes one. *)
Definition py_getitem (container : pyval) (key : string) : exn + pyval :=
  match container with
  | PyDict d =>
      match dict_get key d with
      | Some v => inr v
      | None => inl KeyError
      end
  | _ => inl TypeError
  end.

(** [isinstance(v, float)] *)
Definition is_float (v : pyval) : Prop :=
  match v with
  | PyFloat _ => True
  | _ => False
  end.

(** Numeric in the sense of JSON: an int or a float. *)
Definition is_number (v : pyval) : bool :=
  match v with
  | PyInt _ | PyFloat _ => true
  | _ => false
  end.

End Values.

Arguments PyNone {pyfloat}.
Arguments PyBool {pyfloat} b.
Arguments PyInt {pyfloat} n.
Arguments PyFloat {pyfloat} x.
Arguments PyStr {pyfloat} s.
Arguments PyList {pyfloat} l.
Arguments PyDict {pyfloat} d.
Arguments eq_str {pyfloat} v s.
Arguments is_None {pyfloat} v.
Arguments dict_get {pyfloat} key d.
Arguments py_in {pyfloat} key container.
Arguments py_getitem {pyfloat} container key.
Arguments is_float {pyfloat} v.
Arguments is_number {pyfloat} v.

(** ** The outside world *)

Inductive family : Type := IPv4Address | IPv6Address.

Inductive level : Type := INFO | WARNING | ERROR.

(** What the program does to the outside, in the order it does it: a request
    to the geolocation provider, a probe, a reverse DNS query, a log record
    (the text before the exception, and the exception formatted into it). *)
Inductive event : Type :=
| Lookup (ip_addr : string)
| Probe (v : family) (ip : string) (timeout : Z)
| ReverseDNS (ip : string)
| Logged (lvl : level) (msg : string) (e : option exn).

(** [cache_file] is the text of the file [cache_name], [None] when there is no
    such file; [cache_readable] and [cache_writable] say whether opening it for
    reading, or for writing, succeeds. *)
Record world : Type := World {
  history : list event;
  cache_file : option string;
  cache_readable : bool;
  cache_writable : bool }.

(** The world after one more event. *)
Definition emit (ev : event) (w : world) : world :=
  World (history w ++ [ev]) (cache_file w) (cache_readable w) (cache_writable w).

(** [logging.info], [logging.warning], [logging.error] *)
Definition logging (lvl : level) (msg : string) (e : option exn) (w : world) : world :=
  emit (Logged lvl msg e) w.

(** The world after the cache file has been written. *)
Definition store (text : string) (w : world) : world :=
  World (history w) (Some text) (cache_readable w) (cache_writable w).

(** The answer to [urlopen(...)], [url.read().decode()] and [json.loads]:
    any of them raised, or the decoded document. *)
Inductive response (pyfloat : Type) : Type :=
| Unavailable (e : exn)
| Body (json_data : pyval pyfloat).

Arguments Unavailable {pyfloat} e.
Arguments Body {pyfloat} json_data.

(** The collaborators.  Each answers from the history of what happened so
    far, so the same question may get another answer later.  A reply of the
    probe is the pair of [sent_ip.dst] and [received_ip.src]. *)
Record env (pyfloat : Type) : Type := Env {
  urlopen_json : list event → string → response pyfloat;
  ip_address : string → exn + family;
  traceroute : list event → string → Z → Z → Z → exn + list (string * string);
  traceroute6 : list event → string → Z → Z → Z → exn + list (string * string);
  gethostbyaddr : list event → string → exn + string }.

Arguments urlopen_json {pyfloat} e _ _.
Arguments ip_address {pyfloat} e _.
Arguments traceroute {pyfloat} e _ _ _ _ _.
Arguments traceroute6 {pyfloat} e _ _ _ _ _.
Arguments gethostbyaddr {pyfloat} e _ _.

(** The builtins that touch floats and nested values: [str(x)] of a float,
    [float(s)] on a string already stripped of white space ([None] is
    ValueError), [str(v)] of a list or dict, and the double that
    [math.log(n)] returns for an int [0 < n], as the real number it is. *)
Record builtins (pyfloat : Type) : Type := Builtins {
  float_str : pyfloat → string;
  float_of_literal : string → option pyfloat;
  container_str : pyval pyfloat → string;
  log_double : Z → R }.

Arguments float_str {pyfloat} b _.
Arguments float_of_literal {pyfloat} b _.
Arguments container_str {pyfloat} b _.
Arguments log_double {pyfloat} b _.

(** What [go.Scattergeo(...)] is given. *)
Module go.
Record Scattergeo (V : Type) : Type := mk {
  mode : string;
  lon : list V;
  lat : list V;
  text : list string;
  name : string;
  line_width : R;
  marker_size : Z;
  marker_symbol : string }.
Arguments mk {V}.
Arguments mode {V}.
Arguments lon {V}.
Arguments lat {V}.
Arguments text {V}.
Arguments name {V}.
Arguments line_width {V}.
Arguments marker_size {V}.
Arguments marker_symbol {V}.
End go.

(** ** Module constants *)

Definition marker_size : Z := 10.
Definition max_ttl_traceroute : Z := 32.
Definition cache_name : string := "ip_lat_lon_cache.csv".

(** ** [math.log] and [int] *)

(** [math.log(n)] for an int: a domain error unless [0 < n]. *)
Definition math_log {pyfloat : Type} (B : builtins pyfloat) (n : Z) : exn + R :=
  if (0 <? n)%Z then inr (log_double B n) else inl MathDomainError.

(** [int(x)]: truncation towards zero. *)
Definition int_of_float (x : R) : Z :=
  if Rle_dec 0 x then Int_part x else (- Int_part (- x))%Z.

(** [int(math.log(byte_count)) / 2], the width handed to the plot. *)
Definition width_of {pyfloat : Type} (B : builtins pyfloat) (byte_count : Z) : exn + R :=
  l ← math_log B byte_count; inr (IZR (int_of_float l) / 2)%R.

(** ** The class [Trace] *)

Section Program.

Context {pyfloat : Type}.
Variable B : builtins pyfloat.
Variable E : env pyfloat.

Abbreviation value := (pyval pyfloat).

(** The two attributes of an instance. *)
Record Trace : Type := mkTrace {
  ip_locations : gmap string (value * value);
  blacklisted_ips : gset string }.

(** [Trace()] *)
Definition Trace_init : Trace := mkTrace ∅ ∅.

(** [f'{v}'] *)
Definition py_str (v : value) : string :=
  match v with
  | PyNone => "None"
  | PyBool true => "True"
  | PyBool false => "False"
  | PyInt n => Text.of_int n
  | PyFloat x => float_str B x
  | PyStr s => s
  | PyList _ | PyDict _ => container_str B v
  end.

(** [float(s)] *)
Definition py_float (s : string) : exn + value :=
  match float_of_literal B (Text.strip s) with
  | Some x => inr (PyFloat x)
  | None => inl ValueError
  end.

(** *** [read_from_file] *)

(** One turn of the loop body: [ip, lat, lon = line.split(',')] and the two
    calls of [float]. *)
Definition parse_line (line : string) : exn + (string * (value * value)) :=
  match Text.split Text.comma line with
  | [ip; lat; lon] =>
      la ← py_float lat;
      lo ← py_float lon;
      inr (ip, (la, lo))
  | _ => inl ValueError
  end.

(** The [for] loop: it stores row after row and stops at the first one that
    raises, with what it has stored so far. *)
Fixpoint load_lines (lines : list string) (locations : gmap string (value * value))
  : gmap string (value * value) * option exn :=
  match lines with
  | [] => (locations, None)
  | line :: rest =>
      match parse_line line with
      | inl e => (locations, Some e)
      | inr (ip, c) => load_lines rest (<[ip := c]> locations)
      end
  end.

(** Nothing happens without a file; a file that cannot be opened or read
    is an [OSError] before the loop starts. *)
Definition read_from_file (self : Trace) (w : world) : Trace * world :=
  match cache_file w with
  | None => (self, w)
  | Some raw =>
      if cache_readable w then
        let (_, rest) := Text.readline (Text.universal_newlines raw) in
        let (locations, err) := load_lines (Text.readlines rest) (ip_locations self) in
        (mkTrace locations (blacklisted_ips self),
         match err with
         | None => w
         | Some e => logging ERROR "Unable to load cache: " (Some e) w
         end)
      else (self, logging ERROR "Unable to load cache: " (Some OSError) w)
  end.

(** *** [write_to_file] *)

(** [f'{ip}, {lat}, {lon}\n'] *)
Definition cache_row (entry : string * (value * value)) : string :=
  let '(ip, (lat, lon)) := entry in
  ip +:+ ", " +:+ py_str lat +:+ ", " +:+ py_str lon +:+ String Text.LF EmptyString.

(** ['ip,latitude,longitude\n'] *)
Definition cache_header : string := "ip,latitude,longitude" +:+ String Text.LF EmptyString.

(** The file is written whole or, when it cannot be opened, not at all. *)
Definition write_to_file (self : Trace) (w : world) : Trace * world :=
  if cache_writable w then
    (self,
     store (cache_header +:+ String.concat "" (cache_row <$> map_to_list (ip_locations self))) w)
  else (self, logging ERROR "Unable to write to cache: " (Some OSError) w).

(** *** [get_lat_lon] *)

(** What the body of the [with] decides from the decoded document. *)
Inductive verdict : Type :=
| Missing
| Found (lat lon : value).

(** The two membership tests, the two subscripts, and the test for the
    sentinel and for null. *)
Definition inspect (json_data : value) : exn + verdict :=
  has_lat ← py_in "latitude" json_data;
  if negb has_lat then inr Missing else
  has_lon ← py_in "longitude" json_data;
  if negb has_lon then inr Missing else
  lat ← py_getitem json_data "latitude";
  lon ← py_getitem json_data "longitude";
  if eq_str lat "Not found" || eq_str lon "Not found" || is_None lat || is_None lon
  then inr Missing
  else inr (Found lat lon).

(** The blacklist is consulted first, then the cache; only then the
    provider is asked. *)
Definition get_lat_lon (ip_addr : string) (self : Trace) (w : world)
  : option (value * value) * Trace * world :=
  if bool_decide (ip_addr ∈ blacklisted_ips self) then (None, self, w)
  else match ip_locations self !! ip_addr with
  | Some c => (Some c, self, w)
  | None =>
      let w1 := emit (Lookup ip_addr) w in
      let warn e :=
        logging WARNING ("Unable to determine location of " +:+ ip_addr +:+ ": ") (Some e) w1 in
      match urlopen_json E (history w) ip_addr with
      | Unavailable e => (None, self, warn e)
      | Body json_data =>
          match inspect json_data with
          | inl e => (None, self, warn e)
          | inr Missing =>
              (None, mkTrace (ip_locations self) ({[ip_addr]} ∪ blacklisted_ips self), w1)
          | inr (Found lat lon) =>
              (Some (lat, lon),
               mkTrace (<[ip_addr := (lat, lon)]> (ip_locations self)) (blacklisted_ips self),
               w1)
          end
      end
  end.

(** *** [trace] *)

(** The locals the loop updates. *)
Record hops : Type := Hops {
  lats : list value;
  lons : list value;
  text : list string;
  received : gset string;
  msg : string;
  count : Z }.

(** [f'hop {count}: {who}'] *)
Definition hop_label (count : Z) (who : string) : string :=
  "hop " +:+ Text.of_int count +:+ ": " +:+ who.

(** The body of [for sent_ip, received_ip in ans.res]. *)
Definition hop_step (display_name : bool) (reply : string * string)
  (h : hops) (self : Trace) (w : world) : hops * Trace * world :=
  let '(res, self', w') := get_lat_lon reply.2 self w in
  match res with
  | Some (lat, lon) =>
      (Hops (lats h ++ [lat]) (lons h ++ [lon])
            (text h ++ [hop_label (count h) (if display_name then reply.2 else "")])
            ({[reply.2]} ∪ received h)
            (msg h +:+ reply.1 +:+ " [" +:+ py_str lat +:+ ", " +:+ py_str lon +:+ "], ")
            (count h + 1),
       self', w')
  | None => (h, self', w')
  end.

(** The loop over [ans.res]. *)
Fixpoint hop_loop (display_name : bool) (res : list (string * string))
  (h : hops) (self : Trace) (w : world) : hops * Trace * world :=
  match res with
  | [] => (h, self, w)
  | reply :: rest =>
      let '(h', self', w') := hop_step display_name reply h self w in
      hop_loop display_name rest h' self' w'
  end.

(** [if ip not in received: ...] *)
Definition terminal_hop (ip : string) (h : hops) (self : Trace) (w : world)
  : hops * Trace * world :=
  if bool_decide (ip ∈ received h) then (h, self, w)
  else
    let '(res, self', w') := get_lat_lon ip self w in
    match res with
    | Some (lat, lon) =>
        (Hops (lats h ++ [lat]) (lons h ++ [lon]) (text h ++ [hop_label (count h) ip])
              (received h) (msg h) (count h),
         self', w')
    | None => (h, self', w')
    end.

(** [if display_name: ... else: name = ''] *)
Definition host_name (display_name : bool) (ip : string) (w : world) : string * world :=
  if display_name then
    let w1 := emit (ReverseDNS ip) w in
    match gethostbyaddr E (history w) ip with
    | inr name => ((name +:+ " | ") +:+ " " +:+ ip +:+ "<br>", w1)
    | inl e =>
        ("" +:+ " " +:+ ip +:+ "<br>",
         logging WARNING ("Failed to get hostname of " +:+ ip +:+ ": ") (Some e) w1)
    end
  else ("", w).

(** [traceroute6] for an IPv6 address, [traceroute] otherwise. *)
Definition probe (v : family)
  : list event → string → Z → Z → Z → exn + list (string * string) :=
  match v with
  | IPv6Address => traceroute6 E
  | IPv4Address => traceroute E
  end.

(** An invalid address and a probe that raises end the call at once; the
    domain error of the width comes last, when the arguments of
    [go.Scattergeo] are evaluated. *)
Definition trace (ip : string) (hits byte_count timeout : Z) (display_name : bool)
  (self : Trace) (w : world) : (exn + go.Scattergeo value) * Trace * world :=
  match ip_address E ip with
  | inl e => (inl e, self, w)
  | inr v =>
      let w0 := emit (Probe v ip timeout) w in
      match probe v (history w) ip max_ttl_traceroute 53%Z timeout with
      | inl e => (inl e, self, w0)
      | inr res =>
          let '(h1, self1, w1) :=
            hop_loop display_name res (Hops [] [] [] ∅ ("Route to " +:+ ip +:+ ": ") 1) self w0 in
          let '(h2, self2, w2) := terminal_hop ip h1 self1 w1 in
          let w3 := logging INFO (msg h2) None w2 in
          let mode := if (length (lats h2) =? 1)%nat then "markers" else "markers+lines" in
          let '(name, w4) := host_name display_name ip w3 in
          match width_of B byte_count with
          | inl e => (inl e, self2, w4)
          | inr width =>
              (inr (go.mk mode (lons h2) (lats h2) (text h2)
                          (name +:+ Text.of_int hits +:+ " packets, "
                           +:+ Text.of_int byte_count +:+ " bytes")
                          width marker_size "square"),
               self2, w4)
          end
      end
  end.

(** ** Runs: sequences of calls on one resolver *)

(** A call of one of the four methods. *)
Inductive call : Type :=
| ReadFromFile
| WriteToFile
| GetLatLon (ip_addr : string)
| TraceCall (ip : string) (hits byte_count timeout : Z) (display_name : bool).

(** The resolver and the world after a call, whatever it returned or raised. *)
Definition step (c : call) (self : Trace) (w : world) : Trace * world :=
  match c with
  | ReadFromFile => read_from_file self w
  | WriteToFile => write_to_file self w
  | GetLatLon ip_addr => let '(_, self', w') := get_lat_lon ip_addr self w in (self', w')
  | TraceCall ip hits byte_count timeout display_name =>
      let '(_, self', w') := trace ip hits byte_count timeout display_name self w in (self', w')
  end.

(** The calls one after the other. *)
Fixpoint run (cs : list call) (self : Trace) (w : world) : Trace * world :=
  match cs with
  | [] => (self, w)
  | c :: rest => let '(self', w') := step c self w in run rest self' w'
  end.

(** The call is [read_from_file]. *)
Definition is_load (c : call) : bool :=
  match c with
  | ReadFromFile => true
  | _ => false
  end.

End Program.

Arguments Trace pyfloat : clear implicits.
Arguments hops pyfloat : clear implicits.
Arguments verdict pyfloat : clear implicits.

(** * The vocabulary of the properties *)

Global Instance exn_eq_dec : EqDecision exn.
Proof. solve_decision. Defined.

Global Instance family_eq_dec : EqDecision family.
Proof. solve_decision. Defined.

Global Instance level_eq_dec : EqDecision level.
Proof. solve_decision. Defined.

Global Instance event_eq_dec : EqDecision event.
Proof. solve_decision. Defined.

(** How many requests for [a] the provider has received. *)
Definition lookups_of (a : string) (h : list event) : nat :=
  length (filter (λ ev, ev = Lookup a) h).

(** The event is a request to the provider. *)
Definition is_lookup (ev : event) : bool :=
  match ev with
  | Lookup _ => true
  | _ => false
  end.

(** How many requests the provider has received, for any address. *)
Definition requests (h : list event) : nat :=
  length (filter (λ ev, is_lookup ev = true) h).

Section Vocabulary.

Context {pyfloat : Type}.
Variable B : builtins pyfloat.
Variable E : env pyfloat.

Abbreviation value := (pyval pyfloat).
Abbreviation resolver := (Trace pyfloat).

(** ** Requests and their answers *)

(** What a request for [a] yields when the history is [h]: the exception the
    [try] catches, or the verdict on the document. *)
Definition answer (h : list event) (a : string) : exn + verdict pyfloat :=
  match urlopen_json E h a with
  | Unavailable e => inl e
  | Body json_data => inspect json_data
  end.

(** The world after a request for [a] that raised [e]: the request, then the
    warning. *)
Definition warned (a : string) (e : exn) (w : world) : world :=
  logging WARNING ("Unable to determine location of " +:+ a +:+ ": ") (Some e) (emit (Lookup a) w).

(** The five ways through [get_lat_lon]. *)
Inductive resolution (a : string) (self : resolver) (w : world)
  : option (value * value) → resolver → world → Prop :=
| Blacklisted :
    a ∈ blacklisted_ips self →
    resolution a self w None self w
| Cached c :
    a ∉ blacklisted_ips self → ip_locations self !! a = Some c →
    resolution a self w (Some c) self w
| Failed e :
    a ∉ blacklisted_ips self → ip_locations self !! a = None →
    answer (history w) a = inl e →
    resolution a self w None self (warned a e w)
| NotFound :
    a ∉ blacklisted_ips self → ip_locations self !! a = None →
    answer (history w) a = inr (Missing) →
    resolution a self w None
      (mkTrace (ip_locations self) ({[a]} ∪ blacklisted_ips self)) (emit (Lookup a) w)
| Resolved lat lon :
    a ∉ blacklisted_ips self → ip_locations self !! a = None →
    answer (history w) a = inr (Found lat lon) →
    resolution a self w (Some (lat, lon))
      (mkTrace (<[a := (lat, lon)]> (ip_locations self)) (blacklisted_ips self))
      (emit (Lookup a) w).

(** The request at position [i] of the history [h] was for [a] and failed:
    the provider could not be reached, or its answer could not be read. *)
Definition failed_at (h : list event) (i : nat) (a : string) : Prop :=
  ∃ e, answer (take i h) a = inl e.

(** Every request that did not fail has left its address cached or
    blacklisted, and a request for an address comes after failed requests for
    it only. *)
Definition answered_once (self : resolver) (w : world) : Prop :=
  (∀ i a, history w !! i = Some (Lookup a) →
     failed_at (history w) i a ∨ a ∈ blacklisted_ips self ∨ is_Some (ip_locations self !! a))
  ∧ (∀ i j a, (i < j)%nat →
       history w !! i = Some (Lookup a) → history w !! j = Some (Lookup a) →
       failed_at (history w) i a).

(** The resolver only grows. *)
Definition grows (self self' : resolver) : Prop :=
  (∀ a, a ∈ blacklisted_ips self → a ∈ blacklisted_ips self')
  ∧ (∀ a, is_Some (ip_locations self !! a) → is_Some (ip_locations self' !! a)).

(** ** The cache and the blacklist *)

(** [a] is cached as [c], is not blacklisted, and has been requested [n] times. *)
Definition settled (a : string) (c : value * value) (n : nat)
  (self : resolver) (w : world) : Prop :=
  ip_locations self !! a = Some c ∧ (a ∉ blacklisted_ips self) ∧ lookups_of a (history w) = n.

(** [a] is blacklisted and has been requested [n] times. *)
Definition banned (a : string) (n : nat) (self : resolver) (w : world) : Prop :=
  a ∈ blacklisted_ips self ∧ lookups_of a (history w) = n.

(** No address is both cached and blacklisted. *)
Definition disjoint (self : resolver) : Prop :=
  ∀ a, ¬ (is_Some (ip_locations self !! a) ∧ a ∈ blacklisted_ips self).

(** Every load of the run comes before its first resolution. *)
Fixpoint loads_first (cs : list call) : bool :=
  match cs with
  | [] => true
  | c :: rest =>
      match c with
      | ReadFromFile | WriteToFile => loads_first rest
      | _ => forallb (λ c', negb (is_load c')) rest
      end
  end.

(** A field that is absent, null or the sentinel. *)
Definition unusable (field : option value) : Prop :=
  field = None ∨ field = Some PyNone ∨ field = Some (PyStr "Not found").

(** The document is an object that reports not-found in its latitude or in
    its longitude. *)
Definition reports_not_found (d : list (string * value)) : Prop :=
  unusable (dict_get "latitude" d) ∨ unusable (dict_get "longitude" d).

(** Neither null nor the sentinel. *)
Definition usable (v : value) : Prop := v ≠ PyNone ∧ v ≠ PyStr "Not found".

(** ** The cache file *)

(** [self.ip_locations[ip] = c] *)
Definition insert_row (m : gmap string (value * value)) (row : string * (value * value))
  : gmap string (value * value) :=
  <[row.1 := row.2]> m.

(** The rows the loop reads after the header. *)
Definition body_lines (raw : string) : list string :=
  Text.readlines (Text.readline (Text.universal_newlines raw)).2.

(** An address that the file format can hold: no comma, no line break. *)
Definition plain (a : string) : Prop :=
  Forall (λ c, c ≠ Text.comma ∧ c ≠ Text.LF ∧ c ≠ Text.CR) (Text.chars a).

(** [str] of a float has no comma and no white space. *)
Definition float_text_ok : Prop :=
  ∀ x, Forall (λ c, c ≠ Text.comma ∧ Text.is_space c = false) (Text.chars (float_str B x)).

(** [float(str(x)) == x]. *)
Definition float_round_trips : Prop :=
  ∀ x, float_of_literal B (float_str B x) = Some x.

(** An entry as the annotation [Dict[str, Tuple[float, float]]] has it, at an
    address that the file format can hold. *)
Definition float_row (row : string * (value * value)) : Prop :=
  plain row.1 ∧ is_float row.2.1 ∧ is_float row.2.2.

(** A row as [write_to_file] writes it, without its line feed. *)
Definition row_text (row : string * (value * value)) : string :=
  row.1 +:+ ", " +:+ py_str B row.2.1 +:+ ", " +:+ py_str B row.2.2.

(** ** The logarithm *)

(** [math.log(1)] is [0.0], and [math.log] is not negative from 1 on. *)
Definition log_ok : Prop :=
  log_double B 1 = 0%R ∧ ∀ n, (1 <= n)%Z → (0 <= log_double B n)%R.

(** ** Routes *)

(** Resolving the addresses one after the other on one resolver: what each
    call returns, and the resolver and the world at the end. *)
Fixpoint resolve_all (addrs : list string) (self : resolver) (w : world)
  : list (option (value * value)) * resolver * world :=
  match addrs with
  | [] => ([], self, w)
  | a :: rest =>
      let '(r, self', w') := get_lat_lon E a self w in
      let '(rs, self'', w'') := resolve_all rest self' w' in
      (r :: rs, self'', w'')
  end.

(** The addresses that resolved, in order, each with its coordinate. *)
Fixpoint resolved (addrs : list string) (outcomes : list (option (value * value)))
  : list (string * (value * value)) :=
  match addrs, outcomes with
  | a :: addrs', Some c :: outcomes' => (a, c) :: resolved addrs' outcomes'
  | _ :: addrs', None :: outcomes' => resolved addrs' outcomes'
  | _, _ => []
  end.

(** The labels of consecutive hops, the first one numbered [first]. *)
Fixpoint labels (display_name : bool) (first : Z) (hit : list (string * (value * value)))
  : list string :=
  match hit with
  | [] => []
  | (a, _) :: rest =>
      hop_label first (if display_name then a else "") :: labels display_name (first + 1) rest
  end.

(** ['markers' if len(lats) == 1 else 'markers+lines'] *)
Definition mode_of (n : nat) : string :=
  if (n =? 1)%nat then "markers" else "markers+lines".

(** The terminal hop: nothing more when the destination is among the replies
    that resolved, one more [get_lat_lon] of the destination otherwise. *)
Definition terminal (ip : string) (hit : list (string * (value * value)))
  (self : resolver) (w : world) : option (value * value) * resolver * world :=
  if decide (ip ∈ hit.*1) then (None, self, w) else get_lat_lon E ip self w.

(** The label of the hop that comes after [hit]. *)
Definition next_label (ip : string) (hit : list (string * (value * value))) : string :=
  hop_label (Z.of_nat (length hit) + 1) ip.

(** ** Rows of the cache file *)

(** The rows that the loop stores: those before the first line that raises. *)
Fixpoint accepted (lines : list string) : list (string * (value * value)) :=
  match lines with
  | [] => []
  | line :: rest =>
      match parse_line B line with
      | inr row => row :: accepted rest
      | inl _ => []
      end
  end.

(** How many commas a line has. *)
Definition commas (line : string) : nat :=
  length (filter (λ c, c = Text.comma) (Text.chars line)).

(** ** Documents that are no object *)

(** A document that is a list holds [key] as an element; one that is a
    string holds it as a substring. *)
Definition mentions (key : string) (json_data : value) : bool :=
  match json_data with
  | PyList l => existsb (λ v, eq_str v key) l
  | PyStr s => Text.contains key s
  | _ => false
  end.

(** The document is a list or a string. *)
Definition is_sequence (json_data : value) : bool :=
  match json_data with
  | PyList _ | PyStr _ => true
  | _ => false
  end.

(** The document is a JSON object. *)
Definition is_object (json_data : value) : bool :=
  match json_data with
  | PyDict _ => true
  | _ => false
  end.

(** ** A restart *)

(** [write_to_file], and then [read_from_file] on a resolver just made. *)
Definition restart (self : resolver) (w : world) : resolver * world :=
  read_from_file B Trace_init (write_to_file B self w).2.

(** ** Addresses that need no request *)

(** Every address of [addrs] is blacklisted or cached. *)
Definition all_settled (addrs : list string) (self : resolver) : Prop :=
  ∀ a, a ∈ addrs → a ∈ blacklisted_ips self ∨ is_Some (ip_locations self !! a).

End Vocabulary.

(** ** A small instance for the concrete runs

    Four floats with their [repr], a [float] that reads exactly those four
    literals and raises on any other text, [math.log] at the byte counts of
    the runs, and collaborators given per run.
    The runs below hold no list and no dict other than the provider's
    documents, which are never printed. *)

Module Sample.

Inductive float : Type := F40 | Fm74 | F52_37 | F4_89.

Definition float_str (x : float) : string :=
  match x with
  | F40 => "40.0"
  | Fm74 => "-74.0"
  | F52_37 => "52.37"
  | F4_89 => "4.89"
  end.

Definition float_of_literal (s : string) : option float :=
  if String.eqb s "40.0" then Some F40
  else if String.eqb s "-74.0" then Some Fm74
  else if String.eqb s "52.37" then Some F52_37
  else if String.eqb s "4.89" then Some F4_89
  else None.

Definition container_str (v : pyval float) : string :=
  match v with
  | PyList _ => "[]"
  | _ => "{}"
  end.

(** [math.log] at the byte counts of the runs: [0.0] at 1, and at 60 the
    double [0x1.0609bdc65328bp+2] (4.0943445622221).  No run takes it at
    another count; there it is given as [0.0]. *)
Definition log_double (n : Z) : R :=
  if (n =? 60)%Z then (4609822161187467 / 1125899906842624)%R else 0%R.

Definition B : builtins float :=
  Builtins float float_str float_of_literal container_str log_double.

(** A world with no history; the cache file as given, readable and writable. *)
Definition world_with (file : option string) : world := World [] file true true.

(** Collaborators: the provider answers by address only, every address is an
    IPv4 literal, the probe returns [replies], reverse DNS fails. *)
Definition env_of (provider : string → response float) (replies : list (string * string))
  : env float :=
  Env float (λ _ a, provider a) (λ _, inr IPv4Address)
      (λ _ _ _ _ _, inr replies) (λ _ _ _ _ _, inr replies)
      (λ _ _, inl (External "herror")).

Definition document (lat lon : pyval float) : response float :=
  Body (PyDict [("country_code", PyStr "US"); ("latitude", lat); ("longitude", lon)]).

Definition LF : string := String Text.LF EmptyString.

End Sample.

(** ** Concrete runs *)

Module Runs.
Import Sample.

(** The provider knows 10.0.0.1 and 10.0.0.4, reports 10.0.0.2 as not found
    with null fields, answers 10.0.0.3 with a placeholder text in both fields,
    and is unreachable for any other address. *)
Definition provider (a : string) : response float :=
  if String.eqb a "10.0.0.1" then document (PyFloat F40) (PyFloat Fm74)
  else if String.eqb a "10.0.0.4" then document (PyFloat F52_37) (PyFloat F4_89)
  else if String.eqb a "10.0.0.2" then document PyNone PyNone
  else if String.eqb a "10.0.0.3" then document (PyStr "unknown") (PyStr "unknown")
  else Unavailable (External "URLError").

(** Three replies on the way to 10.0.0.4; the second one comes from an
    address for which the provider is unreachable, the third one from the
    destination. *)
Definition three_replies : list (string * string) :=
  [("10.0.0.4", "10.0.0.1"); ("10.0.0.4", "10.0.0.7"); ("10.0.0.4", "10.0.0.4")].

Definition E0 : env float := env_of provider [].
Definition E3 : env float := env_of provider three_replies.

(** A cache file that holds a row for 10.0.0.2. *)
Definition stale_cache : string :=
  "ip,latitude,longitude" +:+ LF +:+ "10.0.0.2, 40.0, -74.0" +:+ LF.

(** A cache file whose second row is malformed. *)
Definition broken_cache : string :=
  "ip,latitude,longitude" +:+ LF +:+ "10.0.0.1, 40.0, -74.0" +:+ LF
  +:+ "garbage" +:+ LF +:+ "10.0.0.9, 52.37, 4.89" +:+ LF.

End Runs.

Module CacheRuns.
Import Sample Runs.

Definition calls1 : list call :=
  [GetLatLon "10.0.0.2"; TraceCall "10.0.0.1" 3 60 2 true; WriteToFile; GetLatLon "10.0.0.1"].

Definition first1 := get_lat_lon E3 "10.0.0.1" Trace_init (world_with None).
Definition last1 := run B E3 calls1 first1.1.2 first1.2.

Definition calls2 : list call :=
  [ReadFromFile; TraceCall "10.0.0.1" 3 60 2 true; GetLatLon "10.0.0.2"].

End CacheRuns.

Module OverwriteRuns.
Import Sample Runs.

(** A cache file that holds another coordinate for 10.0.0.1 than the
    provider gives. *)
Definition moved_cache : string :=
  "ip,latitude,longitude" +:+ LF +:+ "10.0.0.1, 52.37, 4.89" +:+ LF.

(** 10.0.0.1 is resolved, the file is loaded, and 10.0.0.1 is resolved again. *)
Definition first := get_lat_lon E0 "10.0.0.1" Trace_init (world_with (Some moved_cache)).
Definition loaded := run B E0 [ReadFromFile] first.1.2 first.2.
Definition second := get_lat_lon E0 "10.0.0.1" loaded.1 loaded.2.

End OverwriteRuns.

Module SaveRuns.
Import Sample Runs.

(** The resolver after [get_lat_lon "10.0.0.3"]: the provider's placeholder
    text is what it has stored. *)
Definition placeholder := get_lat_lon E0 "10.0.0.3" Trace_init (world_with None).
Definition saved := write_to_file B placeholder.1.2 placeholder.2.
Definition reloaded := read_from_file B Trace_init saved.2.

(** A resolver that holds one pair of floats. *)
Definition known : Trace float :=
  mkTrace (<["10.0.0.1" := (PyFloat F40, PyFloat Fm74)]> ∅) ∅.

End SaveRuns.

Module RouteRuns.
Import Sample Runs.



End RouteRuns.

Module RequestRuns.
Import Sample Runs.

(** The destination 10.0.0.7 replies itself; the provider cannot be reached
    for it. *)
Definition E7 : env float := env_of provider [("10.0.0.7", "10.0.0.7")].

Definition unreachable : list call := [TraceCall "10.0.0.7" 3 60 2 false].

End RequestRuns.

Module MoreRuns.
Import Sample Runs.

(** A resolver that has the first and the third address of [three_replies]
    cached and the second one blacklisted. *)
Definition settled3 : Trace float :=
  mkTrace (<["10.0.0.1" := (PyFloat F40, PyFloat Fm74)]>
             (<["10.0.0.4" := (PyFloat F52_37, PyFloat F4_89)]> ∅))
          {["10.0.0.7"]}.

(** A provider that answers every request with the list [["latitude"]]. *)
Definition word_list (a : string) : response float := Body (PyList [PyStr "latitude"]).

Definition E_list : env float := env_of word_list [].

(** A cache file with two rows for 10.0.0.1. *)
Definition twice_cache : string :=
  "ip,latitude,longitude" +:+ LF +:+ "10.0.0.1, 40.0, -74.0" +:+ LF
  +:+ "10.0.0.1, 52.37, 4.89" +:+ LF.

(** A resolver that has blacklisted 10.0.0.2 and cached nothing. *)
Definition banned2 : Trace float := mkTrace ∅ {["10.0.0.2"]}.

End MoreRuns.

(** * Properties *)

Lemma lookups_of_app a h1 h2 :
  lookups_of a (h1 ++ h2) = (lookups_of a h1 + lookups_of a h2)%nat.
Proof. unfold lookups_of. by rewrite filter_app, length_app. Qed.

Lemma lookups_of_quiet a ev :
  is_lookup ev = false → lookups_of a [ev] = 0%nat.
Proof. destruct ev; try discriminate; intros _; reflexivity. Qed.

Lemma lookups_of_other a b : a ≠ b → lookups_of a [Lookup b] = 0%nat.
Proof.
  intros Hab. unfold lookups_of. rewrite filter_cons_False, filter_nil; [done|].
  congruence.
Qed.

Section Resolution.

Context {pyfloat : Type}.
Variable B : builtins pyfloat.
Variable E : env pyfloat.

Abbreviation value := (pyval pyfloat).
Abbreviation resolver := (Trace pyfloat).

Lemma get_lat_lon_resolution a self w :
  resolution E a self w (get_lat_lon E a self w).1.1 (get_lat_lon E a self w).1.2
             (get_lat_lon E a self w).2.
Proof.
  unfold get_lat_lon. case_bool_decide as Hbl; [by constructor|].
  destruct (ip_locations self !! a) as [c|] eqn:Hloc; [by constructor|].
  destruct (urlopen_json E (history w) a) as [e|json_data] eqn:Hurl.
  - apply Failed; [done..|]. unfold answer. by rewrite Hurl.
  - destruct (inspect json_data) as [e|[|lat lon]] eqn:Hins; simpl.
    + apply Failed; [done..|]. unfold answer. by rewrite Hurl.
    + apply NotFound; [done..|]. unfold answer. by rewrite Hurl.
    + apply Resolved; [done..|]. unfold answer. by rewrite Hurl.
Qed.

Lemma get_lat_lon_inv a self w r self' w' :
  get_lat_lon E a self w = (r, self', w') → resolution E a self w r self' w'.
Proof.
  intros Heq. pose proof (get_lat_lon_resolution a self w) as H.
  by rewrite Heq in H.
Qed.

Lemma resolution_get_lat_lon a self w r self' w' :
  resolution E a self w r self' w' → get_lat_lon E a self w = (r, self', w').
Proof.
  intros H. pose proof (get_lat_lon_resolution a self w) as H'.
  destruct (get_lat_lon E a self w) as [[r0 s0] w0]. simpl in H'.
  destruct H; inversion H'; subst; try done; try congruence.
Qed.

End Resolution.

(** ** What every call preserves

    A property of the resolver and the world that each way through
    [get_lat_lon] preserves, and that neither a record other than a request to
    the provider nor a write of the cache file can break, holds after [trace],
    after [write_to_file] and after any run of them. *)

Section Preservation.

Context {pyfloat : Type}.
Variable B : builtins pyfloat.
Variable E : env pyfloat.
Variable P : Trace pyfloat → world → Prop.

Hypothesis P_resolution :
  ∀ a self w r self' w', P self w → resolution E a self w r self' w' → P self' w'.
Hypothesis P_quiet :
  ∀ ev self w, is_lookup ev = false → P self w → P self (emit ev w).
Hypothesis P_store :
  ∀ t self w, P self w → P self (store t w).

Lemma preserved_get_lat_lon a self w r self' w' :
  get_lat_lon E a self w = (r, self', w') → P self w → P self' w'.
Proof. intros Heq HP. eapply P_resolution; [done|]. by apply get_lat_lon_inv. Qed.

Lemma preserved_hop_step dn reply h self w h' self' w' :
  hop_step B E dn reply h self w = (h', self', w') → P self w → P self' w'.
Proof.
  unfold hop_step. destruct (get_lat_lon E reply.2 self w) as [[r s] w0] eqn:Hg.
  intros Heq HP. apply (preserved_get_lat_lon _ _ _ _ _ _ Hg) in HP.
  destruct r as [[lat lon]|]; by simplify_eq.
Qed.

Lemma preserved_hop_loop dn res : ∀ h self w h' self' w',
  hop_loop B E dn res h self w = (h', self', w') → P self w → P self' w'.
Proof.
  induction res as [|reply rest IH]; simpl; intros h self w h' self' w' Heq HP.
  - by simplify_eq.
  - destruct (hop_step B E dn reply h self w) as [[h0 s0] w0] eqn:Hs.
    eapply IH; [done|]. by eapply preserved_hop_step.
Qed.

Lemma preserved_terminal_hop ip h self w h' self' w' :
  terminal_hop E ip h self w = (h', self', w') → P self w → P self' w'.
Proof.
  unfold terminal_hop. case_bool_decide; [intros; by simplify_eq|].
  destruct (get_lat_lon E ip self w) as [[r s] w0] eqn:Hg.
  intros Heq HP. apply (preserved_get_lat_lon _ _ _ _ _ _ Hg) in HP.
  destruct r as [[lat lon]|]; by simplify_eq.
Qed.

Lemma preserved_host_name dn ip w name w' self :
  host_name E dn ip w = (name, w') → P self w → P self w'.
Proof.
  unfold host_name. destruct dn; [|intros; by simplify_eq].
  destruct (gethostbyaddr E (history w) ip); intros; simplify_eq.
  - unfold logging. apply P_quiet; [done|]. by apply P_quiet.
  - by apply P_quiet.
Qed.

Lemma preserved_trace ip hits byte_count timeout dn self w out self' w' :
  trace B E ip hits byte_count timeout dn self w = (out, self', w') →
  P self w → P self' w'.
Proof.
  unfold trace. destruct (ip_address E ip) as [e|v]; [intros; by simplify_eq|].
  destruct (probe E v _ _ _ _ _) as [e|res]; [intros; simplify_eq; by apply P_quiet|].
  destruct (hop_loop _ _ _ _ _ _ _) as [[h1 s1] w1] eqn:Hloop.
  destruct (terminal_hop _ _ _ _ _) as [[h2 s2] w2] eqn:Hterm.
  destruct (host_name _ _ _ _) as [name w4] eqn:Hname.
  intros Heq HP.
  assert (P s2 w4) as HP4.
  { eapply preserved_host_name; [done|]. unfold logging. apply P_quiet; [done|].
    eapply preserved_terminal_hop; [done|]. eapply preserved_hop_loop; [done|].
    by apply P_quiet. }
  destruct (width_of B byte_count); by simplify_eq.
Qed.

Lemma preserved_write_to_file self w self' w' :
  write_to_file B self w = (self', w') → P self w → P self' w'.
Proof.
  unfold write_to_file. destruct (cache_writable w); intros; simplify_eq.
  - by apply P_store.
  - by apply P_quiet.
Qed.

Lemma preserved_step c self w self' w' :
  (is_load c = false ∨ ∀ s0 w0 s1 w1, read_from_file B s0 w0 = (s1, w1) → P s0 w0 → P s1 w1) →
  step B E c self w = (self', w') → P self w → P self' w'.
Proof.
  intros Hload. destruct c; simpl.
  - destruct Hload as [?|Hload]; [done|]. apply Hload.
  - apply preserved_write_to_file.
  - destruct (get_lat_lon E ip_addr self w) as [[r s] w0] eqn:Hg.
    intros; simplify_eq. by eapply preserved_get_lat_lon.
  - destruct (trace _ _ _ _ _ _ _ _ _) as [[r s] w0] eqn:Hg.
    intros; simplify_eq. by eapply preserved_trace.
Qed.

Lemma preserved_run cs : ∀ self w self' w',
  Forall (λ c, is_load c = false) cs →
  run B E cs self w = (self', w') → P self w → P self' w'.
Proof.
  induction cs as [|c rest IH]; simpl; intros self w self' w' Hcs Heq HP.
  - by simplify_eq.
  - inversion_clear Hcs.
    destruct (step B E c self w) as [s0 w0] eqn:Hs.
    eapply IH; [done..|]. eapply preserved_step; [by left|done..].
Qed.

Lemma preserved_run_loading cs : ∀ self w self' w',
  (∀ s0 w0 s1 w1, read_from_file B s0 w0 = (s1, w1) → P s0 w0 → P s1 w1) →
  run B E cs self w = (self', w') → P self w → P self' w'.
Proof.
  induction cs as [|c rest IH]; simpl; intros self w self' w' Hload Heq HP.
  - by simplify_eq.
  - destruct (step B E c self w) as [s0 w0] eqn:Hs.
    eapply IH; [done..|]. eapply preserved_step; [by right|done..].
Qed.

End Preservation.

(** ** The cache and the blacklist *)

Section Cache.

Context {pyfloat : Type}.
Variable B : builtins pyfloat.
Variable E : env pyfloat.

Abbreviation value := (pyval pyfloat).
Abbreviation resolver := (Trace pyfloat).

Lemma history_emit ev w : history (emit ev w) = history w ++ [ev].
Proof. reflexivity. Qed.

Lemma lookups_of_emit_quiet a ev w :
  is_lookup ev = false → lookups_of a (history (emit ev w)) = lookups_of a (history w).
Proof.
  intros Hq. rewrite history_emit, lookups_of_app, lookups_of_quiet by done. lia.
Qed.

Lemma lookups_of_warned a b e w :
  a ≠ b → lookups_of a (history (warned b e w)) = lookups_of a (history w).
Proof.
  intros Hab. unfold warned, logging.
  rewrite lookups_of_emit_quiet by done.
  rewrite history_emit, lookups_of_app, lookups_of_other by done. lia.
Qed.

Lemma lookups_of_emit_other a b w :
  a ≠ b → lookups_of a (history (emit (Lookup b) w)) = lookups_of a (history w).
Proof.
  intros Hab. rewrite history_emit, lookups_of_app, lookups_of_other by done. lia.
Qed.

Lemma settled_resolution a c n b self w r self' w' :
  settled a c n self w → resolution E b self w r self' w' → settled a c n self' w'.
Proof.
  intros (Hloc & Hbl & Hn) Hres.
  destruct Hres as [?|c' ? ?|e ? Hb ?|? Hb ?|lat lon ? Hb ?]; try done.
  - assert (a ≠ b) by congruence.
    split_and!; [done..|by rewrite lookups_of_warned].
  - assert (a ≠ b) by congruence.
    split_and!; [done| |by rewrite lookups_of_emit_other].
    simpl. by intros [?%elem_of_singleton|?]%elem_of_union.
  - assert (a ≠ b) by congruence.
    split_and!; [simpl; by rewrite lookup_insert_ne|done|by rewrite lookups_of_emit_other].
Qed.

Lemma banned_resolution a n b self w r self' w' :
  banned a n self w → resolution E b self w r self' w' → banned a n self' w'.
Proof.
  intros (Hbl & Hn) Hres.
  destruct Hres as [?|c' ? ?|e Hb ? ?|Hb ? ?|lat lon Hb ? ?]; try done.
  - assert (a ≠ b) by congruence. split; [done|]. by rewrite lookups_of_warned.
  - assert (a ≠ b) by congruence.
    split; [simpl; set_solver|by rewrite lookups_of_emit_other].
  - assert (a ≠ b) by congruence.
    split; [done|by rewrite lookups_of_emit_other].
Qed.

Lemma disjoint_resolution b self w r self' w' :
  disjoint self → resolution E b self w r self' w' → disjoint self'.
Proof.
  intros Hd Hres.
  destruct Hres as [?|c' ? ?|e Hb ? ?|Hb Hloc ?|lat lon Hb Hloc ?]; try done.
  - intros a [Ha Hin]. simpl in *.
    apply elem_of_union in Hin as [Hin%elem_of_singleton|Hin].
    + subst. rewrite Hloc in Ha. by destruct Ha.
    + by apply (Hd a).
  - intros a [Ha Hin]. simpl in *.
    destruct (decide (b = a)) as [->|Hne]; [done|].
    rewrite lookup_insert_ne in Ha by done. by apply (Hd a).
Qed.

(** [read_from_file] leaves the blacklist alone and sends nothing. *)
Lemma read_from_file_blacklist self w :
  blacklisted_ips (read_from_file B self w).1 = blacklisted_ips self.
Proof.
  unfold read_from_file. destruct (cache_file w) as [raw|]; [|done].
  destruct (cache_readable w); [|done].
  destruct (Text.readline _) as [hd rest].
  by destruct (load_lines B _ _) as [locations err].
Qed.

Lemma read_from_file_lookups a self w :
  lookups_of a (history (read_from_file B self w).2) = lookups_of a (history w).
Proof.
  unfold read_from_file. destruct (cache_file w) as [raw|]; [|done].
  destruct (cache_readable w); [|by apply lookups_of_emit_quiet].
  destruct (Text.readline _) as [hd rest].
  destruct (load_lines B _ _) as [locations [e|]]; [|done].
  by apply lookups_of_emit_quiet.
Qed.

Lemma banned_read_from_file a n self w self' w' :
  read_from_file B self w = (self', w') → banned a n self w → banned a n self' w'.
Proof.
  intros Heq [Hbl Hn].
  pose proof (read_from_file_blacklist self w) as H1.
  pose proof (read_from_file_lookups a self w) as H2.
  rewrite Heq in H1, H2. simpl in *. split; congruence.
Qed.

End Cache.

Section CacheClaims.

Context {pyfloat : Type}.
Variable B : builtins pyfloat.
Variable E : env pyfloat.

(** C1, as amended. Once [get_lat_lon a] has returned a coordinate [c],
    then after any further calls of [get_lat_lon], [trace] and
    [write_to_file] on that resolver, with no [read_from_file] among them, a
    new [get_lat_lon a] returns [c] again and changes nothing (so it sends no
    request), the entry of [a] is still [c], and the provider has received no
    further request for [a] in between. *)
Theorem first_resolution_wins a c self w self1 w1 cs self2 w2 :
  get_lat_lon E a self w = (Some c, self1, w1) →
  Forall (λ k, is_load k = false) cs →
  run B E cs self1 w1 = (self2, w2) →
  get_lat_lon E a self2 w2 = (Some c, self2, w2)
  ∧ ip_locations self2 !! a = Some c
  ∧ lookups_of a (history w2) = lookups_of a (history w1).
Proof.
  intros Hfirst Hcs Hrun.
  assert (settled a c (lookups_of a (history w1)) self1 w1) as Hs.
  { apply get_lat_lon_inv in Hfirst. inversion Hfirst; subst.
    - by split_and!.
    - split_and!; [simpl; apply lookup_insert_eq|done..]. }
  assert (settled a c (lookups_of a (history w1)) self2 w2) as (Hloc & Hbl & Hn).
  { eapply (preserved_run B E (settled a c _)); [| | |done..|done].
    - intros. by eapply settled_resolution.
    - intros ev s w0 Hq (? & ? & ?). split_and!; [done..|].
      by rewrite lookups_of_emit_quiet.
    - by intros t s w0 (? & ? & ?). }
  split_and!; [|done..].
  apply resolution_get_lat_lon. by constructor.
Qed.

(** C2. When the provider answers the request for [a] with an object that
    reports not-found (latitude or longitude absent, null or "Not found"),
    [get_lat_lon a] returns nothing and blacklists [a]; after any further
    calls whatever, [get_lat_lon a] returns nothing and changes nothing, and
    the provider has received no further request for [a]. *)
Theorem not_found_is_blacklisted a d self w :
  a ∉ blacklisted_ips self →
  ip_locations self !! a = None →
  urlopen_json E (history w) a = Body (PyDict d) →
  reports_not_found d →
  ∃ self1 w1,
    get_lat_lon E a self w = (None, self1, w1)
    ∧ a ∈ blacklisted_ips self1
    ∧ ∀ cs self2 w2,
        run B E cs self1 w1 = (self2, w2) →
        get_lat_lon E a self2 w2 = (None, self2, w2)
        ∧ lookups_of a (history w2) = lookups_of a (history w1).
Proof.
  intros Hbl Hloc Hurl Hnf.
  assert (answer E (history w) a = inr Missing) as Hans.
  { unfold answer. rewrite Hurl. unfold inspect. simpl.
    destruct (dict_get "latitude" d) as [lat|] eqn:Hlat; simpl; [|done].
    destruct (dict_get "longitude" d) as [lon|] eqn:Hlon; simpl; [|done].
    destruct Hnf as [[?|[?|?]]|[?|[?|?]]]; simplify_eq; simpl; try done;
      by destruct (eq_str _ _), (is_None _).
  }
  eexists _, _. split; [|split].
  - apply resolution_get_lat_lon. by apply NotFound.
  - simpl. apply elem_of_union_l. by apply elem_of_singleton.
  - intros cs self2 w2 Hrun.
    set (s1 := mkTrace _ _) in Hrun. set (w1 := emit _ _) in *.
    assert (banned a (lookups_of a (history w1)) self2 w2) as [Hin Hn].
    { eapply (preserved_run_loading B E (banned a _)); [| | | |done|].
      - intros. by eapply banned_resolution.
      - intros ev s w0 Hq [? ?]. split; [done|]. by rewrite lookups_of_emit_quiet.
      - by intros t s w0 [? ?].
      - intros. by eapply banned_read_from_file.
      - split; [|done]. simpl. apply elem_of_union_l. by apply elem_of_singleton. }
    split; [|done]. apply resolution_get_lat_lon. by constructor.
Qed.

End CacheClaims.

(** C1, as stated, fails: 10.0.0.1 resolves to what the provider gives;
    a [read_from_file] then stores the row that the file has for 10.0.0.1
    over the entry, and the next [get_lat_lon] returns the coordinate of the
    file. *)
Lemma load_overwrites_first_resolution :
  OverwriteRuns.first.1.1 = Some (PyFloat Sample.F40, PyFloat Sample.Fm74)
  ∧ ip_locations OverwriteRuns.first.1.2 !! "10.0.0.1"
    = Some (PyFloat Sample.F40, PyFloat Sample.Fm74)
  ∧ ip_locations OverwriteRuns.loaded.1 !! "10.0.0.1"
    = Some (PyFloat Sample.F52_37, PyFloat Sample.F4_89)
  ∧ OverwriteRuns.second.1.1 = Some (PyFloat Sample.F52_37, PyFloat Sample.F4_89).
Proof. split_and!; by vm_compute. Qed.

(** C1, as amended, on a run: 10.0.0.1 is resolved, then come a resolution
    of another address, a trace, a save and a resolution of 10.0.0.1. *)
Lemma first_resolution_wins_witness :
  get_lat_lon Runs.E3 "10.0.0.1" CacheRuns.last1.1 CacheRuns.last1.2
    = (Some (PyFloat Sample.F40, PyFloat Sample.Fm74), CacheRuns.last1.1, CacheRuns.last1.2)
  ∧ ip_locations CacheRuns.last1.1 !! "10.0.0.1" = Some (PyFloat Sample.F40, PyFloat Sample.Fm74)
  ∧ lookups_of "10.0.0.1" (history CacheRuns.last1.2)
    = lookups_of "10.0.0.1" (history CacheRuns.first1.2).
Proof.
  apply (first_resolution_wins Sample.B Runs.E3 "10.0.0.1" _ Trace_init
           (Sample.world_with None) CacheRuns.first1.1.2 CacheRuns.first1.2 CacheRuns.calls1).
  - reflexivity.
  - repeat constructor.
  - reflexivity.
Defined.

(** C2 on a run: the provider answers 10.0.0.2 with null in both fields. *)
Lemma not_found_is_blacklisted_witness :
  ∃ self1 w1,
    get_lat_lon Runs.E3 "10.0.0.2" Trace_init (Sample.world_with (Some Runs.stale_cache))
      = (None, self1, w1)
    ∧ "10.0.0.2" ∈ blacklisted_ips self1
    ∧ ∀ cs self2 w2,
        run Sample.B Runs.E3 cs self1 w1 = (self2, w2) →
        get_lat_lon Runs.E3 "10.0.0.2" self2 w2 = (None, self2, w2)
        ∧ lookups_of "10.0.0.2" (history w2) = lookups_of "10.0.0.2" (history w1).
Proof.
  apply (not_found_is_blacklisted Sample.B Runs.E3 "10.0.0.2"
           [("country_code", PyStr "US"); ("latitude", PyNone); ("longitude", PyNone)]).
  - by intros ?%elem_of_empty.
  - reflexivity.
  - reflexivity.
  - left. right. left. reflexivity.
Defined.

Section Disjointness.

Context {pyfloat : Type}.
Variable B : builtins pyfloat.
Variable E : env pyfloat.

Lemma write_to_file_self self w : (write_to_file B self w).1 = self.
Proof. unfold write_to_file. by destruct (cache_writable w). Qed.

Lemma disjoint_no_blacklist (self : Trace pyfloat) :
  blacklisted_ips self = ∅ → disjoint self.
Proof. intros Hbl a [_ Hin]. rewrite Hbl in Hin. by apply elem_of_empty in Hin. Qed.

Lemma disjoint_step c self w :
  is_load c = false → disjoint self → disjoint (step B E c self w).1.
Proof.
  intros Hc Hd. destruct (step B E c self w) as [s' w'] eqn:Hs.
  eapply (preserved_step B E (λ s _, disjoint s)); [| | |by left|done..].
  - intros. by eapply disjoint_resolution.
  - done.
  - done.
Qed.

Lemma disjoint_run cs self w :
  Forall (λ c, is_load c = false) cs → disjoint self → disjoint (run B E cs self w).1.
Proof.
  intros Hcs Hd. destruct (run B E cs self w) as [s' w'] eqn:Hs.
  eapply (preserved_run B E (λ s _, disjoint s)); [| | |done..].
  - intros. by eapply disjoint_resolution.
  - done.
  - done.
Qed.

Lemma loads_first_disjoint_from cs : ∀ self w,
  blacklisted_ips self = ∅ → loads_first cs = true → disjoint (run B E cs self w).1.
Proof.
  induction cs as [|c rest IH]; intros self w Hbl Hcs.
  - by apply disjoint_no_blacklist.
  - simpl. destruct (step B E c self w) as [s' w'] eqn:Hs.
    assert (∀ c', c = c' → is_load c' = false →
                  forallb (λ c0, negb (is_load c0)) rest = true →
                  disjoint (run B E rest s' w').1) as Hresolving.
    { intros c' -> Hc Hrest.
      apply disjoint_run.
      - apply Forall_forall. intros k Hk.
        rewrite forallb_forall in Hrest. apply list_elem_of_In, Hrest in Hk.
        by destruct (is_load k).
      - pose proof (disjoint_step c' self w Hc (disjoint_no_blacklist _ Hbl)) as Hd.
        by rewrite Hs in Hd. }
    destruct c; simpl in Hcs.
    + apply IH; [|done]. simpl in Hs.
      pose proof (read_from_file_blacklist B self w) as Hr. rewrite Hs in Hr.
      simpl in Hr. congruence.
    + apply IH; [|done]. simpl in Hs.
      pose proof (write_to_file_self self w) as Hw. rewrite Hs in Hw.
      simpl in Hw. by subst.
    + by eapply Hresolving.
    + by eapply Hresolving.
Qed.

(** C3, as amended. Starting from a fresh resolver, after any run of
    [read_from_file], [write_to_file], [get_lat_lon] and [trace] in which no
    [read_from_file] comes after a [get_lat_lon] or a [trace], no address is
    both in [ip_locations] and in [blacklisted_ips]. *)
Theorem loads_first_disjoint cs w :
  loads_first cs = true → disjoint (run B E cs Trace_init w).1.
Proof. intros Hcs. by apply loads_first_disjoint_from. Qed.

End Disjointness.

(** C3, as stated, fails: [get_lat_lon] blacklists 10.0.0.2 on the provider's
    null answer, and a [read_from_file] that comes later stores the row the
    cache file has for the same address. *)
Lemma load_after_blacklisting_overlaps :
  ip_locations
    (run Sample.B Runs.E0 [GetLatLon "10.0.0.2"; ReadFromFile] Trace_init
         (Sample.world_with (Some Runs.stale_cache))).1 !! "10.0.0.2"
    = Some (PyFloat Sample.F40, PyFloat Sample.Fm74)
  ∧ "10.0.0.2" ∈
    blacklisted_ips
      (run Sample.B Runs.E0 [GetLatLon "10.0.0.2"; ReadFromFile] Trace_init
           (Sample.world_with (Some Runs.stale_cache))).1.
Proof.
  split; [by vm_compute|].
  apply (bool_decide_eq_true_1 _). by vm_compute.
Qed.

(** C3, as amended, on a run that loads first. *)
Lemma loads_first_disjoint_witness :
  disjoint (run Sample.B Runs.E3 CacheRuns.calls2 Trace_init
                (Sample.world_with (Some Runs.stale_cache))).1.
Proof.
  apply (loads_first_disjoint Sample.B Runs.E3 CacheRuns.calls2). reflexivity.
Defined.

(** ** Loading and saving the cache *)

Section Persistence.

Context {pyfloat : Type}.
Variable B : builtins pyfloat.

Abbreviation value := (pyval pyfloat).

Lemma load_lines_stops good : ∀ rows bad rest e m,
  Forall2 (λ line row, parse_line B line = inr row) good rows →
  parse_line B bad = inl e →
  load_lines B (good ++ bad :: rest) m = (foldl insert_row m rows, Some e).
Proof.
  induction good as [|line good IH]; intros rows bad rest e m Hgood Hbad.
  - apply Forall2_nil_inv_l in Hgood as ->. simpl. by rewrite Hbad.
  - apply Forall2_cons_inv_l in Hgood as ([ip c] & rows' & Hline & Hgood & ->).
    simpl. rewrite Hline. by apply IH.
Qed.

Lemma load_lines_all lines : ∀ rows m,
  Forall2 (λ line row, parse_line B line = inr row) lines rows →
  load_lines B lines m = (foldl insert_row m rows, None).
Proof.
  induction lines as [|line lines IH]; intros rows m Hall.
  - by apply Forall2_nil_inv_l in Hall as ->.
  - apply Forall2_cons_inv_l in Hall as ([ip c] & rows' & Hline & Hall & ->).
    simpl. rewrite Hline. by apply IH.
Qed.

(** C4, as amended. [read_from_file] never raises (it is a function of the
    resolver and the world).  With no cache file nothing changes; with a file
    that cannot be read the resolver is unchanged and an error is logged.
    When a row is malformed, the error is logged, the rows before it have been
    stored and stay stored, on top of what the resolver held, and the rows
    after it are not read. *)
Theorem failed_load_keeps_parsed_rows (self : Trace pyfloat) (w : world) :
  (cache_file w = None → read_from_file B self w = (self, w))
  ∧ (is_Some (cache_file w) → cache_readable w = false →
     read_from_file B self w
       = (self, logging ERROR "Unable to load cache: " (Some OSError) w))
  ∧ (∀ raw good rows bad rest e,
       cache_file w = Some raw → cache_readable w = true →
       body_lines raw = good ++ bad :: rest →
       Forall2 (λ line row, parse_line B line = inr row) good rows →
       parse_line B bad = inl e →
       read_from_file B self w
         = (mkTrace (foldl insert_row (ip_locations self) rows) (blacklisted_ips self),
            logging ERROR "Unable to load cache: " (Some e) w)).
Proof.
  split_and!.
  - intros Hnone. unfold read_from_file. by rewrite Hnone.
  - intros [raw Hraw] Hr. unfold read_from_file. by rewrite Hraw, Hr.
  - intros raw good rows bad rest e Hraw Hr Hlines Hgood Hbad.
    unfold read_from_file. rewrite Hraw, Hr.
    unfold body_lines in Hlines.
    destruct (Text.readline (Text.universal_newlines raw)) as [hd body].
    simpl in Hlines. rewrite Hlines.
    by rewrite (load_lines_stops good rows bad rest e _ Hgood Hbad).
Qed.

End Persistence.

(** C4, as stated, fails: the second row of the file is malformed, the load
    logs the error, and the first row is in [ip_locations] all the same. *)
Lemma failed_load_is_not_empty :
  history (read_from_file Sample.B Trace_init (Sample.world_with (Some Runs.broken_cache))).2
    = [Logged ERROR "Unable to load cache: " (Some ValueError)]
  ∧ ip_locations
      (read_from_file Sample.B Trace_init (Sample.world_with (Some Runs.broken_cache))).1
      !! "10.0.0.1"
    = Some (PyFloat Sample.F40, PyFloat Sample.Fm74).
Proof. split; by vm_compute. Qed.

(** C4, as amended, on the file whose second row is malformed. *)
Lemma failed_load_keeps_parsed_rows_witness :
  read_from_file Sample.B Trace_init (Sample.world_with (Some Runs.broken_cache))
  = (mkTrace (foldl insert_row ∅ [("10.0.0.1", (PyFloat Sample.F40, PyFloat Sample.Fm74))]) ∅,
     logging ERROR "Unable to load cache: " (Some ValueError)
             (Sample.world_with (Some Runs.broken_cache))).
Proof.
  apply (proj2 (proj2 (failed_load_keeps_parsed_rows Sample.B Trace_init
                         (Sample.world_with (Some Runs.broken_cache))))
           Runs.broken_cache
           ["10.0.0.1, 40.0, -74.0" +:+ Sample.LF]
           [("10.0.0.1", (PyFloat Sample.F40, PyFloat Sample.Fm74))]
           ("garbage" +:+ Sample.LF)
           ["10.0.0.9, 52.37, 4.89" +:+ Sample.LF]).
  - reflexivity.
  - reflexivity.
  - reflexivity.
  - repeat constructor.
  - reflexivity.
Defined.

(** ** Facts about text *)

Module TextFacts.
Import Text.

#[local] Arguments String.append !s1 s2 : simpl nomatch.

Lemma app_assoc (s t u : string) : (s +:+ t) +:+ u = s +:+ (t +:+ u).
Proof. induction s as [|c s IH]; simpl; congruence. Qed.

Lemma app_nil_r (s : string) : s +:+ "" = s.
Proof. induction s as [|c s IH]; simpl; congruence. Qed.

Lemma chars_app (s t : string) : chars (s +:+ t) = chars s ++ chars t.
Proof. induction s as [|c s IH]; simpl; congruence. Qed.

Lemma concat_cons (x : string) (xs : list string) :
  String.concat "" (x :: xs) = x +:+ String.concat "" xs.
Proof. destruct xs; simpl; [by rewrite app_nil_r|done]. Qed.

Lemma universal_newlines_id (s : string) :
  Forall (λ c, c ≠ CR) (chars s) → universal_newlines s = s.
Proof.
  induction s as [|c s IH]; [done|]. intros [Hc Hs]%Forall_cons. simpl.
  apply Ascii.eqb_neq in Hc. rewrite Hc. by rewrite IH.
Qed.

Lemma split_whole (sep : ascii) (s : string) :
  Forall (λ c, c ≠ sep) (chars s) → split sep s = [s].
Proof.
  induction s as [|c s IH]; [done|]. intros [Hc Hs]%Forall_cons. simpl.
  apply Ascii.eqb_neq in Hc. rewrite Hc. by rewrite IH.
Qed.

Lemma split_at (sep : ascii) (s t : string) :
  Forall (λ c, c ≠ sep) (chars s) →
  split sep (s +:+ String sep t) = s :: split sep t.
Proof.
  induction s as [|c s IH]; simpl.
  - intros _. by rewrite Ascii.eqb_refl.
  - intros [Hc Hs]%Forall_cons. apply Ascii.eqb_neq in Hc. rewrite Hc.
    by rewrite IH.
Qed.

Lemma readline_at (s t : string) :
  Forall (λ c, c ≠ LF) (chars s) →
  readline (s +:+ String LF t) = (s +:+ String LF "", t).
Proof.
  induction s as [|c s IH]; simpl.
  - done.
  - intros [Hc Hs]%Forall_cons. apply Ascii.eqb_neq in Hc. rewrite Hc.
    by rewrite IH.
Qed.

Lemma readlines_at (s t : string) :
  Forall (λ c, c ≠ LF) (chars s) →
  readlines (s +:+ String LF t) = (s +:+ String LF "") :: readlines t.
Proof.
  induction s as [|c s IH]; simpl.
  - done.
  - intros [Hc Hs]%Forall_cons. apply Ascii.eqb_neq in Hc. rewrite Hc.
    by rewrite IH.
Qed.

Lemma lstrip_id (s : string) :
  Forall (λ c, is_space c = false) (chars s) → lstrip s = s.
Proof. destruct s as [|c s]; [done|]. intros [Hc _]%Forall_cons. simpl. by rewrite Hc. Qed.

Lemma rstrip_id (s : string) :
  Forall (λ c, is_space c = false) (chars s) → rstrip s = s.
Proof.
  induction s as [|c s IH]; [done|]. intros [Hc Hs]%Forall_cons. simpl.
  rewrite IH by done. destruct s; [by rewrite Hc|done].
Qed.

Lemma rstrip_line (s : string) :
  Forall (λ c, is_space c = false) (chars s) → rstrip (s +:+ String LF "") = s.
Proof.
  induction s as [|c s IH]; [done|]. intros [Hc Hs]%Forall_cons. simpl.
  rewrite IH by done. destruct s; [by rewrite Hc|done].
Qed.

(** What [float] strips from a field of a row. *)
Lemma strip_field (s : string) :
  Forall (λ c, is_space c = false) (chars s) →
  strip (" " +:+ s) = s ∧ strip (" " +:+ s +:+ String LF "") = s.
Proof.
  intros Hs. unfold strip. simpl. split.
  - rewrite lstrip_id by done. by apply rstrip_id.
  - destruct s as [|c s]; [done|].
    pose proof Hs as [Hc _]%Forall_cons.
    change (String c s +:+ String LF "") with (String c (s +:+ String LF "")).
    cbn [lstrip]. rewrite Hc.
    change (String c (s +:+ String LF "")) with (String c s +:+ String LF "").
    by apply rstrip_line.
Qed.

Lemma not_space_not_newline (c : ascii) : is_space c = false → c ≠ LF ∧ c ≠ CR.
Proof. intros Hc. split; intros ->; discriminate. Qed.

End TextFacts.

Section RoundTrip.

Context {pyfloat : Type}.
Variable B : builtins pyfloat.

Abbreviation value := (pyval pyfloat).

Hypothesis Htext : float_text_ok B.
Hypothesis Hfloat : float_round_trips B.

Lemma Forall_chars_app (P : ascii → Prop) (s t : string) :
  Forall P (Text.chars (s +:+ t)) ↔ Forall P (Text.chars s) ∧ Forall P (Text.chars t).
Proof. rewrite TextFacts.chars_app. apply Forall_app. Qed.

Lemma cache_row_line row : cache_row B row = row_text B row +:+ String Text.LF "".
Proof.
  destruct row as [ip [lat lon]]. unfold cache_row, row_text. simpl.
  by rewrite !TextFacts.app_assoc.
Qed.

Lemma float_text_no_space x :
  Forall (λ c, Text.is_space c = false) (Text.chars (float_str B x)).
Proof. eapply Forall_impl; [apply Htext|]. by intros c [_ ?]. Qed.

Lemma float_text_no_comma x :
  Forall (λ c, c ≠ Text.comma) (Text.chars (float_str B x)).
Proof. eapply Forall_impl; [apply Htext|]. by intros c [? _]. Qed.

Lemma row_text_no_break row :
  float_row row → Forall (λ c, c ≠ Text.LF ∧ c ≠ Text.CR) (Text.chars (row_text B row)).
Proof.
  destruct row as [ip [[] []]]; intros (Hip & Hlat & Hlon); try done.
  unfold row_text. simpl in *.
  assert (∀ y, Forall (λ c, c ≠ Text.LF ∧ c ≠ Text.CR) (Text.chars (float_str B y))) as Hf.
  { intros y. eapply Forall_impl; [apply float_text_no_space|].
    apply TextFacts.not_space_not_newline. }
  assert (Forall (λ c, c ≠ Text.LF ∧ c ≠ Text.CR) (Text.chars ", ")) as Hsep.
  { by repeat constructor. }
  rewrite !Forall_chars_app. split_and!; try done.
  eapply Forall_impl; [apply Hip|]. by intros c (_ & ? & ?).
Qed.

Lemma parse_cache_row row : float_row row → parse_line B (cache_row B row) = inr row.
Proof.
  destruct row as [ip [[| | |x|s| |] [| | |y|s'| |]]]; intros (Hip & Hlat & Hlon); try done.
  unfold parse_line, cache_row. simpl in *.
  change (ip +:+ ", " +:+ float_str B x +:+ ", " +:+ float_str B y +:+ String Text.LF "")
    with (ip +:+ String Text.comma
            ((" " +:+ float_str B x) +:+ String Text.comma
               (" " +:+ float_str B y +:+ String Text.LF ""))).
  rewrite TextFacts.split_at.
  2:{ eapply Forall_impl; [apply Hip|]. by intros c (? & _). }
  rewrite TextFacts.split_at.
  2:{ apply Forall_chars_app. split; [by repeat constructor|apply float_text_no_comma]. }
  rewrite TextFacts.split_whole.
  2:{ rewrite !Forall_chars_app. split_and!; [by repeat constructor| |by repeat constructor].
      apply float_text_no_comma. }
  unfold py_float.
  destruct (TextFacts.strip_field (float_str B x) (float_text_no_space x)) as [-> _].
  destruct (TextFacts.strip_field (float_str B y) (float_text_no_space y)) as [_ ->].
  by rewrite !Hfloat.
Qed.

Lemma readlines_rows (l : list (string * (value * value))) :
  Forall float_row l →
  Text.readlines (String.concat "" (cache_row B <$> l)) = cache_row B <$> l.
Proof.
  induction l as [|row l IH]; [done|]. intros [Hrow Hl]%Forall_cons.
  rewrite fmap_cons, TextFacts.concat_cons, cache_row_line, TextFacts.app_assoc.
  change (String Text.LF "" +:+ ?t) with (String Text.LF t).
  rewrite TextFacts.readlines_at.
  - by rewrite IH.
  - eapply Forall_impl; [by apply row_text_no_break|]. by intros c [? _].
Qed.

Lemma rows_no_return (l : list (string * (value * value))) :
  Forall float_row l →
  Forall (λ c, c ≠ Text.CR) (Text.chars (String.concat "" (cache_row B <$> l))).
Proof.
  induction l as [|row l IH]; [by constructor|]. intros [Hrow Hl]%Forall_cons.
  rewrite fmap_cons, TextFacts.concat_cons, cache_row_line.
  rewrite !Forall_chars_app. split_and!; [|by repeat constructor|by apply IH].
  eapply Forall_impl; [by apply row_text_no_break|]. by intros c [_ ?].
Qed.

Lemma foldl_insert_row (l : list (string * (value * value))) : ∀ m,
  NoDup l.*1 → foldl insert_row m l = list_to_map l ∪ m.
Proof.
  induction l as [|[k v] l IH]; intros m Hnd.
  - simpl. by rewrite (left_id_L ∅ (∪)).
  - apply NoDup_cons in Hnd as [Hk Hnd]. simpl. rewrite IH by done.
    unfold insert_row. simpl.
    rewrite <- insert_union_r, insert_union_l; [done|].
    by apply not_elem_of_list_to_map_1.
Qed.

Lemma foldl_insert_row_map (m : gmap string (value * value)) :
  foldl insert_row ∅ (map_to_list m) = m.
Proof.
  rewrite foldl_insert_row by apply NoDup_fst_map_to_list.
  by rewrite (right_id_L ∅ (∪)), list_to_map_to_list.
Qed.

Lemma readline_header (body : string) :
  Text.readline (cache_header +:+ body) = (cache_header, body).
Proof. reflexivity. Qed.

(** C5, as amended. When the cache file can be written and read, every
    cached coordinate is a pair of floats and no cached address holds a comma
    or a line break, then [write_to_file] followed by [read_from_file] into a
    fresh resolver gives that resolver the same [ip_locations], an empty
    blacklist, and logs nothing.  Two facts about Python's floats are
    assumed: [str] of a float has no comma and no white space
    ([float_text_ok]), and [float] reads it back ([float_round_trips]). *)
Theorem save_then_load (self : Trace pyfloat) (w : world) :
  cache_writable w = true →
  cache_readable w = true →
  (∀ a c, ip_locations self !! a = Some c → float_row (a, c)) →
  read_from_file B Trace_init (write_to_file B self w).2
  = (mkTrace (ip_locations self) ∅, (write_to_file B self w).2).
Proof.
  intros Hw Hr Hrows.
  assert (Forall float_row (map_to_list (ip_locations self))) as Hall.
  { apply Forall_forall. intros [a c] Hin. by apply Hrows, elem_of_map_to_list. }
  unfold write_to_file. rewrite Hw.
  unfold read_from_file. cbn [snd store cache_file cache_readable]. rewrite Hr.
  rewrite TextFacts.universal_newlines_id.
  2:{ apply Forall_chars_app. split; [by repeat constructor|by apply rows_no_return]. }
  rewrite readline_header, readlines_rows by done.
  rewrite (load_lines_all B _ (map_to_list (ip_locations self))).
  - by rewrite foldl_insert_row_map.
  - apply Forall2_fmap_l, Forall_Forall2_diag.
    eapply Forall_impl; [done|]. intros row Hrow. by apply parse_cache_row.
Qed.

End RoundTrip.

(** C5, as stated, fails: the resolver holds the text the provider gave for
    10.0.0.3, [write_to_file] writes it, and on loading [float] raises on it,
    so the fresh resolver does not hold the entry. *)
Lemma placeholder_entry_does_not_round_trip :
  ip_locations SaveRuns.placeholder.1.2 !! "10.0.0.3"
    = Some (PyStr "unknown", PyStr "unknown")
  ∧ cache_file SaveRuns.saved.2
    = Some ("ip,latitude,longitude" +:+ Sample.LF +:+ "10.0.0.3, unknown, unknown" +:+ Sample.LF)
  ∧ ip_locations SaveRuns.reloaded.1 !! "10.0.0.3" = None.
Proof. split_and!; by vm_compute. Qed.

(** C5, as amended, on a resolver that holds one pair of floats. *)
Lemma save_then_load_witness :
  read_from_file Sample.B Trace_init
    (write_to_file Sample.B SaveRuns.known (Sample.world_with None)).2
  = (mkTrace (ip_locations SaveRuns.known) ∅,
     (write_to_file Sample.B SaveRuns.known (Sample.world_with None)).2).
Proof.
  apply (save_then_load Sample.B).
  - intros []; repeat constructor; done.
  - intros []; reflexivity.
  - reflexivity.
  - reflexivity.
  - unfold SaveRuns.known. cbn [ip_locations].
    intros a c [[<- <-]|[_ H]]%lookup_insert_Some.
    + split_and!; [|done..]. repeat constructor; done.
    + by rewrite lookup_empty in H.
Defined.

(** ** The hops of a route *)

Section Hops.

Context {pyfloat : Type}.
Variable B : builtins pyfloat.
Variable E : env pyfloat.

Abbreviation value := (pyval pyfloat).
Abbreviation resolver := (Trace pyfloat).

Lemma labels_length dn first (hit : list (string * (value * value))) :
  length (labels dn first hit) = length hit.
Proof.
  revert first. induction hit as [|[a c] hit IH]; intros first; simpl; [done|].
  by rewrite IH.
Qed.


Lemma resolve_all_cons a rest self w :
  resolve_all E (a :: rest) self w
  = let '(r, self', w') := get_lat_lon E a self w in
    let '(rs, self'', w'') := resolve_all E rest self' w' in
    (r :: rs, self'', w'').
Proof. reflexivity. Qed.

Lemma hop_loop_cons dn reply rest h self w :
  hop_loop B E dn (reply :: rest) h self w
  = let '(h', self', w') := hop_step B E dn reply h self w in
    hop_loop B E dn rest h' self' w'.
Proof. reflexivity. Qed.

Lemma hop_loop_fields dn res : ∀ h self w outs self' w',
  resolve_all E res.*2 self w = (outs, self', w') →
  ∃ h',
    hop_loop B E dn res h self w = (h', self', w')
    ∧ lats h' = lats h ++ (resolved res.*2 outs).*2.*1
    ∧ lons h' = lons h ++ (resolved res.*2 outs).*2.*2
    ∧ text h' = text h ++ labels dn (count h) (resolved res.*2 outs)
    ∧ (∀ a, a ∈ received h' ↔ a ∈ (resolved res.*2 outs).*1 ∨ a ∈ received h)
    ∧ count h' = (count h + Z.of_nat (length (resolved res.*2 outs)))%Z.
Proof.
  induction res as [|[dst src] res IH]; intros h self w outs self' w' Hall.
  - simpl in *. simplify_eq. exists h. simpl.
    rewrite !app_nil_r, Z.add_0_r. split_and!; try done.
    intros a. split; [by right|]. intros [Hin|?]; [|done]. by apply elem_of_nil in Hin.
  - rewrite fmap_cons in *. cbn [snd] in *. rewrite resolve_all_cons in Hall.
    rewrite hop_loop_cons. unfold hop_step. cbn [snd fst].
    destruct (get_lat_lon E src self w) as [[r s0] w0] eqn:Hg.
    destruct (resolve_all E res.*2 s0 w0) as [[rs s1] w1] eqn:Hrest.
    simplify_eq.
    destruct r as [[lat lon]|].
    + edestruct (IH (Hops (lats h ++ [lat]) (lons h ++ [lon])
                          (text h ++ [hop_label (count h) (if dn then src else "")])
                          ({[src]} ∪ received h)
                          (msg h +:+ dst +:+ " [" +:+ py_str B lat +:+ ", " +:+ py_str B lon +:+ "], ")
                          (count h + 1)) s0 w0)
        as (h' & Hloop & Hlat & Hlon & Htext & Hrecv & Hcount); [done|].
      exists h'. cbn [lats lons text received count] in *.
      cbn [resolved labels fmap list_fmap fst snd length].
      split_and!; [done| | | | |].
      * by rewrite Hlat, <- app_assoc.
      * by rewrite Hlon, <- app_assoc.
      * by rewrite Htext, <- app_assoc.
      * intros a. rewrite Hrecv, elem_of_cons, elem_of_union, elem_of_singleton. tauto.
      * lia.
    + edestruct (IH h s0 w0) as (h' & Hloop & Hrest'); [done|].
      exists h'. by split.
Qed.

Lemma width_of_positive byte_count :
  (0 < byte_count)%Z →
  width_of B byte_count = inr (IZR (int_of_float (log_double B byte_count)) / 2)%R.
Proof.
  intros Hpos. unfold width_of, math_log.
  by rewrite (proj2 (Z.ltb_lt 0 byte_count) Hpos).
Qed.

Lemma host_name_quiet dn ip w a :
  lookups_of a (history (host_name E dn ip w).2) = lookups_of a (history w).
Proof.
  unfold host_name. destruct dn; [|done].
  destruct (gethostbyaddr E (history w) ip); cbn [snd].
  - unfold logging. by rewrite !lookups_of_emit_quiet.
  - by rewrite lookups_of_emit_quiet.
Qed.

(** [trace] once the probe has answered and the width is defined: the
    record holds what the loop and the terminal hop have gathered. *)
Lemma trace_assembled ip hits byte_count timeout dn self w v res h1 s1 w1 h2 s2 w2 :
  ip_address E ip = inr v →
  probe E v (history w) ip max_ttl_traceroute 53 timeout = inr res →
  (0 < byte_count)%Z →
  hop_loop B E dn res (Hops [] [] [] ∅ ("Route to " +:+ ip +:+ ": ") 1) self
           (emit (Probe v ip timeout) w) = (h1, s1, w1) →
  terminal_hop E ip h1 s1 w1 = (h2, s2, w2) →
  ∃ sg w',
    trace B E ip hits byte_count timeout dn self w = (inr sg, s2, w')
    ∧ go.lat sg = lats h2 ∧ go.lon sg = lons h2 ∧ go.text sg = text h2
    ∧ go.mode sg = mode_of (length (lats h2))
    ∧ ∀ a, lookups_of a (history w') = lookups_of a (history w2).
Proof.
  intros Hip Hprobe Hpos Hloop Hterm. unfold trace.
  rewrite Hip, Hprobe, Hloop, Hterm, (width_of_positive _ Hpos).
  destruct (host_name E dn ip (logging INFO (msg h2) None w2)) as [name w4] eqn:Hname.
  eexists _, _. split_and!; try done.
  intros a. pose proof (host_name_quiet dn ip (logging INFO (msg h2) None w2) a) as Hq.
  rewrite Hname in Hq. simpl in Hq. rewrite Hq. by apply lookups_of_emit_quiet.
Qed.

End Hops.

Section Route.

Context {pyfloat : Type}.
Variable B : builtins pyfloat.
Variable E : env pyfloat.

Abbreviation value := (pyval pyfloat).
Abbreviation resolver := (Trace pyfloat).

Lemma route_assembled ip hits byte_count timeout dn self w v res outs self1 w1 extra self2 w2 :
  ip_address E ip = inr v →
  probe E v (history w) ip max_ttl_traceroute 53 timeout = inr res →
  (0 < byte_count)%Z →
  resolve_all E res.*2 self (emit (Probe v ip timeout) w) = (outs, self1, w1) →
  terminal E ip (resolved res.*2 outs) self1 w1 = (extra, self2, w2) →
  ∃ sg w',
    trace B E ip hits byte_count timeout dn self w = (inr sg, self2, w')
    ∧ go.lat sg = (resolved res.*2 outs).*2.*1 ++ option_list (fst <$> extra)
    ∧ go.lon sg = (resolved res.*2 outs).*2.*2 ++ option_list (snd <$> extra)
    ∧ go.text sg
      = labels dn 1 (resolved res.*2 outs)
        ++ option_list ((λ _, next_label ip (resolved res.*2 outs)) <$> extra)
    ∧ go.mode sg = mode_of (length (go.lat sg))
    ∧ ∀ a, lookups_of a (history w') = lookups_of a (history w2).
Proof.
  intros Hip Hprobe Hpos Hall Hterm.
  set (hit := resolved res.*2 outs) in *.
  destruct (hop_loop_fields B E dn res (Hops [] [] [] ∅ ("Route to " +:+ ip +:+ ": ") 1)
              _ _ _ _ _ Hall)
    as (h1 & Hloop & Hlat & Hlon & Htext & Hrecv & Hcount).
  fold hit in Hlat, Hlon, Htext, Hrecv, Hcount. cbn [lats lons text received count] in *.
  rewrite app_nil_l in Hlat, Hlon, Htext.
  assert (∃ h2, terminal_hop E ip h1 self1 w1 = (h2, self2, w2)
                ∧ lats h2 = hit.*2.*1 ++ option_list (fst <$> extra)
                ∧ lons h2 = hit.*2.*2 ++ option_list (snd <$> extra)
                ∧ text h2 = labels dn 1 hit ++ option_list ((λ _, next_label ip hit) <$> extra))
    as (h2 & Hterm' & Hlat2 & Hlon2 & Htext2).
  { unfold terminal in Hterm. unfold terminal_hop.
    destruct (decide (ip ∈ hit.*1)) as [Hin|Hout].
    - simplify_eq. rewrite bool_decide_eq_true_2 by (apply Hrecv; by left).
      exists h1. simpl. by rewrite !app_nil_r.
    - rewrite bool_decide_eq_false_2.
      2:{ intros [?|Hin]%Hrecv; [done|]. by apply elem_of_empty in Hin. }
      rewrite Hterm. destruct extra as [[lat lon]|].
      + eexists. split; [done|]. simpl. rewrite Hlat, Hlon, Htext, Hcount.
        unfold next_label. split_and!; try done. do 3 f_equal. lia.
      + exists h1. simpl. by rewrite !app_nil_r. }
  destruct (trace_assembled B E ip hits byte_count timeout dn self w v res
              h1 self1 w1 h2 self2 w2 Hip Hprobe Hpos Hloop Hterm')
    as (sg & w' & Htrace & Hsglat & Hsglon & Hsgtext & Hmode & Hquiet).
  exists sg, w'. rewrite Hsglat, Hsglon, Hsgtext, Hmode. by split_and!.
Qed.



End Route.



(** ** Requests to the provider *)

Section Requests.

Context {pyfloat : Type}.
Variable B : builtins pyfloat.
Variable E : env pyfloat.

Abbreviation value := (pyval pyfloat).
Abbreviation resolver := (Trace pyfloat).

Lemma grows_refl (self : resolver) : grows self self.
Proof. by split. Qed.

Lemma failed_at_app h k i a :
  (i ≤ length h)%nat → failed_at E (h ++ k) i a ↔ failed_at E h i a.
Proof. intros Hi. unfold failed_at. by rewrite take_app_le. Qed.

Lemma answered_once_quiet ev self w :
  is_lookup ev = false → answered_once E self w → answered_once E self (emit ev w).
Proof.
  intros Hq [H1 H2]. split.
  - intros i a [[Hi Hev]|[_ ->]]%lookup_snoc_Some; [|done].
    rewrite history_emit, failed_at_app by lia. by apply H1.
  - intros i j a Hij [[Hi Hev]|[_ Heq]]%lookup_snoc_Some
                     [[Hj Hev']|[_ Heq']]%lookup_snoc_Some; try (by subst).
    rewrite history_emit, failed_at_app by lia. by apply (H2 i j a).
Qed.

Lemma answered_once_lookup b self self' w :
  answered_once E self w →
  b ∉ blacklisted_ips self → ip_locations self !! b = None →
  grows self self' →
  (failed_at E (history w) (length (history w)) b
   ∨ b ∈ blacklisted_ips self' ∨ is_Some (ip_locations self' !! b)) →
  answered_once E self' (emit (Lookup b) w).
Proof.
  intros [H1 H2] Hbl Hloc [Hg1 Hg2] Hnew.
  assert (∀ i, history w !! i = Some (Lookup b) → failed_at E (history w) i b) as Hold.
  { intros i Hi. destruct (H1 i b Hi) as [?|[?|Hsome]]; [done..|].
    rewrite Hloc in Hsome. by destruct Hsome. }
  split.
  - intros i a [[Hi Hev]|[-> [= <-]]]%lookup_snoc_Some; rewrite history_emit.
    + rewrite failed_at_app by lia. destruct (H1 i a Hev) as [?|[?|?]]; auto.
    + rewrite failed_at_app by lia. done.
  - intros i j a Hij [[Hi Hev]|[Hi Heq]]%lookup_snoc_Some
                     [[Hj Hev']|[Hj Heq']]%lookup_snoc_Some;
      rewrite history_emit; simplify_eq; try lia.
    + rewrite failed_at_app by lia. by apply (H2 i j a).
    + rewrite failed_at_app by lia. by apply Hold.
Qed.

Lemma answered_once_resolution b self w r self' w' :
  answered_once E self w → resolution E b self w r self' w' → answered_once E self' w'.
Proof.
  intros Hinv Hres.
  destruct Hres as [?|c' ? ?|e Hb Hloc Hans|Hb Hloc Hans|lat lon Hb Hloc Hans]; try done.
  - unfold warned, logging. apply answered_once_quiet; [done|].
    apply (answered_once_lookup b self self w); [done..|apply grows_refl|].
    left. exists e. by rewrite firstn_all.
  - apply (answered_once_lookup b self _ w); [done..| |].
    + split; simpl; [|done]. intros a Ha. by apply elem_of_union_r.
    + right. left. simpl. by apply elem_of_union_l, elem_of_singleton.
  - apply (answered_once_lookup b self _ w); [done..| |].
    + split; simpl; [done|]. intros a Ha. apply lookup_insert_is_Some'. by right.
    + right. right. simpl. apply lookup_insert_is_Some'. by left.
Qed.

Lemma load_lines_grows lines : ∀ m a,
  is_Some (m !! a) → is_Some ((load_lines B lines m).1 !! a).
Proof.
  induction lines as [|line lines IH]; intros m a Ha; [done|]. simpl.
  destruct (parse_line B line) as [e|[ip c]]; [done|].
  apply IH, lookup_insert_is_Some'. by right.
Qed.

Lemma answered_once_grows self self' w :
  grows self self' → answered_once E self w → answered_once E self' w.
Proof.
  intros [Hg1 Hg2] [H1 H2]. split; [|done].
  intros i a Hi. destruct (H1 i a Hi) as [?|[?|?]]; auto.
Qed.

Lemma answered_once_read_from_file self w self' w' :
  read_from_file B self w = (self', w') → answered_once E self w → answered_once E self' w'.
Proof.
  unfold read_from_file. destruct (cache_file w) as [raw|]; [|by intros; simplify_eq].
  destruct (cache_readable w).
  2:{ intros; simplify_eq. by apply answered_once_quiet. }
  destruct (Text.readline _) as [hd rest].
  destruct (load_lines B (Text.readlines rest) (ip_locations self)) as [locations err] eqn:Hl.
  intros Heq Hinv. simplify_eq.
  assert (answered_once E (mkTrace locations (blacklisted_ips self)) w) as Hinv'.
  { eapply answered_once_grows; [|done]. split; simpl; [done|].
    intros a Ha. pose proof (load_lines_grows (Text.readlines rest) _ a Ha) as Hg.
    by rewrite Hl in Hg. }
  destruct err; [by apply answered_once_quiet|done].
Qed.

(** C8, as amended. When the request for [a] fails (the provider cannot be
    reached or its answer cannot be read), [get_lat_lon a] logs a warning,
    returns nothing and leaves the resolver as it was: [a] is neither
    blacklisted nor cached.  In a run that starts on a fresh resolver with
    an empty history, a request for an address is repeated only after a
    request for it that failed: an address whose request was answered, with a
    coordinate or with not-found, is never requested again. *)
Theorem failed_lookup_is_not_remembered :
  (∀ a e (self : resolver) w,
     a ∉ blacklisted_ips self → ip_locations self !! a = None →
     answer E (history w) a = inl e →
     get_lat_lon E a self w
     = (None, self,
        logging WARNING ("Unable to determine location of " +:+ a +:+ ": ") (Some e)
                (emit (Lookup a) w)))
  ∧ (∀ cs w self' w',
       history w = [] →
       run B E cs Trace_init w = (self', w') →
       ∀ i j a, (i < j)%nat →
         history w' !! i = Some (Lookup a) → history w' !! j = Some (Lookup a) →
         failed_at E (history w') i a).
Proof.
  split.
  - intros a e self w Hbl Hloc Hans. apply resolution_get_lat_lon. by apply Failed.
  - intros cs w self' w' Hw Hrun.
    assert (answered_once E self' w') as [_ H2]; [|done].
    eapply (preserved_run_loading B E (answered_once E)); [| | | |done|].
    + intros. by eapply answered_once_resolution.
    + intros. by apply answered_once_quiet.
    + by intros t s w0 [? ?].
    + intros. by eapply answered_once_read_from_file.
    + split; intros i; intros; rewrite Hw in *; done.
Qed.

End Requests.

(** C8, as stated, fails: in one [trace] of 10.0.0.7 the provider is asked
    twice for 10.0.0.7, once for the reply and once more for the terminal hop,
    because the first request failed and left no mark. *)
Lemma unreachable_destination_is_requested_twice :
  history (trace Sample.B RequestRuns.E7 "10.0.0.7" 3 60 2 false Trace_init
                 (Sample.world_with None)).2
  = [ Probe IPv4Address "10.0.0.7" 2;
      Lookup "10.0.0.7";
      Logged WARNING "Unable to determine location of 10.0.0.7: " (Some (External "URLError"));
      Lookup "10.0.0.7";
      Logged WARNING "Unable to determine location of 10.0.0.7: " (Some (External "URLError"));
      Logged INFO "Route to 10.0.0.7: " None ].
Proof. reflexivity. Qed.

(** C8, as amended, on the trace of 10.0.0.7: the request at position 1 of
    the history, which is repeated at position 3, failed. *)
Lemma failed_lookup_is_not_remembered_witness :
  get_lat_lon RequestRuns.E7 "10.0.0.7" Trace_init (Sample.world_with None)
  = (None, Trace_init,
     logging WARNING "Unable to determine location of 10.0.0.7: " (Some (External "URLError"))
             (emit (Lookup "10.0.0.7") (Sample.world_with None)))
  ∧ failed_at RequestRuns.E7
      (history (run Sample.B RequestRuns.E7 RequestRuns.unreachable Trace_init
                    (Sample.world_with None)).2)
      1 "10.0.0.7".
Proof.
  split.
  - apply (proj1 (failed_lookup_is_not_remembered Sample.B RequestRuns.E7)
             "10.0.0.7" (External "URLError") Trace_init (Sample.world_with None)).
    + by intros ?%elem_of_empty.
    + reflexivity.
    + reflexivity.
  - apply (proj2 (failed_lookup_is_not_remembered Sample.B RequestRuns.E7)
             RequestRuns.unreachable (Sample.world_with None)
             (run Sample.B RequestRuns.E7 RequestRuns.unreachable Trace_init
                  (Sample.world_with None)).1
             (run Sample.B RequestRuns.E7 RequestRuns.unreachable Trace_init
                  (Sample.world_with None)).2
             eq_refl eq_refl 1%nat 3%nat "10.0.0.7").
    + lia.
    + reflexivity.
    + reflexivity.
Defined.

(** ** What [get_lat_lon] stores *)

Section Stored.

Context {pyfloat : Type}.
Variable E : env pyfloat.

Abbreviation value := (pyval pyfloat).

Lemma usable_test (lat lon : value) :
  eq_str lat "Not found" || eq_str lon "Not found" || is_None lat || is_None lon = false
  ↔ usable lat ∧ usable lon.
Proof.
  rewrite !orb_false_iff. unfold usable. split.
  - intros [[[Hlat Hlon] Hnlat] Hnlon]. split_and!; by intros ->.
  - intros [[Hnlat Hlat] [Hnlon Hlon]]. split_and!.
    + destruct lat; try done. simpl. apply String.eqb_neq. congruence.
    + destruct lon; try done. simpl. apply String.eqb_neq. congruence.
    + by destruct lat.
    + by destruct lon.
Qed.

Lemma inspect_found (json_data : value) lat lon :
  inspect json_data = inr (Found lat lon)
  ↔ ∃ d, json_data = PyDict d
         ∧ dict_get "latitude" d = Some lat ∧ dict_get "longitude" d = Some lon
         ∧ usable lat ∧ usable lon.
Proof.
  split.
  - destruct json_data as [| | | |s|l|d]; try done.
    + unfold inspect. simpl. destruct (Text.contains "latitude" s); [|done]. simpl.
      by destruct (Text.contains "longitude" s).
    + unfold inspect. simpl. destruct (existsb _ l); [|done]. simpl.
      by destruct (existsb _ l).
    + unfold inspect. simpl.
      destruct (dict_get "latitude" d) as [lat'|] eqn:Hlat; [|done]. simpl.
      destruct (dict_get "longitude" d) as [lon'|] eqn:Hlon; [|done]. simpl.
      destruct (eq_str lat' "Not found" || eq_str lon' "Not found"
                || is_None lat' || is_None lon') eqn:Htest; [done|].
      intros [= <- <-]. apply usable_test in Htest. by exists d.
  - intros (d & -> & Hlat & Hlon & Hu). unfold inspect. simpl.
    rewrite Hlat, Hlon. simpl. apply usable_test in Hu. by rewrite Hu.
Qed.

(** C10, as amended. For an address that is neither blacklisted nor cached,
    [get_lat_lon] returns a pair exactly when the provider's document is an
    object whose latitude and longitude are both present and neither is null
    nor "Not found"; the pair is the two values as they are, numeric or not,
    and it is what [ip_locations] then holds for the address. *)
Theorem stores_every_usable_pair a (self : Trace pyfloat) w lat lon :
  a ∉ blacklisted_ips self →
  ip_locations self !! a = None →
  ((get_lat_lon E a self w).1.1 = Some (lat, lon)
   ↔ ∃ d, urlopen_json E (history w) a = Body (PyDict d)
          ∧ dict_get "latitude" d = Some lat ∧ dict_get "longitude" d = Some lon
          ∧ usable lat ∧ usable lon)
  ∧ ((get_lat_lon E a self w).1.1 = Some (lat, lon) →
     ip_locations (get_lat_lon E a self w).1.2 !! a = Some (lat, lon)).
Proof.
  intros Hbl Hloc.
  assert ((get_lat_lon E a self w).1.1 = Some (lat, lon)
          ↔ answer E (history w) a = inr (Found lat lon)) as Hiff.
  { split.
    - intros Hget. pose proof (get_lat_lon_resolution E a self w) as Hres.
      rewrite Hget in Hres. inversion Hres; congruence.
    - intros Hans. by rewrite (resolution_get_lat_lon E _ _ _ _ _ _
                                 (Resolved E a self w lat lon Hbl Hloc Hans)). }
  split.
  - rewrite Hiff. unfold answer.
    destruct (urlopen_json E (history w) a) as [e|json_data].
    + split; [done|]. by intros (d & ? & _).
    + rewrite inspect_found. split.
      * intros (d & -> & ?). by exists d.
      * intros (d & [= ->] & ?). by exists d.
  - intros Hans%Hiff.
    rewrite (resolution_get_lat_lon E _ _ _ _ _ _ (Resolved E a self w lat lon Hbl Hloc Hans)).
    simpl. apply lookup_insert_eq.
Qed.

End Stored.

(** C10, as stated, fails: the provider answers 10.0.0.3 with a text in
    both fields; [get_lat_lon] returns the two texts and stores them. *)
Lemma placeholder_text_is_stored :
  (get_lat_lon Runs.E0 "10.0.0.3" Trace_init (Sample.world_with None)).1.1
    = Some (PyStr "unknown", PyStr "unknown")
  ∧ ip_locations (get_lat_lon Runs.E0 "10.0.0.3" Trace_init (Sample.world_with None)).1.2
      !! "10.0.0.3"
    = Some (PyStr "unknown", PyStr "unknown")
  ∧ is_number (PyStr "unknown" : pyval Sample.float) = false.
Proof. split_and!; by vm_compute. Qed.

(** C10, as amended, on the request for 10.0.0.1. *)
Lemma stores_every_usable_pair_witness :
  ((get_lat_lon Runs.E0 "10.0.0.1" Trace_init (Sample.world_with None)).1.1
     = Some (PyFloat Sample.F40, PyFloat Sample.Fm74)
   ↔ ∃ d, urlopen_json Runs.E0 (history (Sample.world_with None)) "10.0.0.1" = Body (PyDict d)
          ∧ dict_get "latitude" d = Some (PyFloat Sample.F40)
          ∧ dict_get "longitude" d = Some (PyFloat Sample.Fm74)
          ∧ usable (PyFloat Sample.F40) ∧ usable (PyFloat Sample.Fm74))
  ∧ ((get_lat_lon Runs.E0 "10.0.0.1" Trace_init (Sample.world_with None)).1.1
       = Some (PyFloat Sample.F40, PyFloat Sample.Fm74) →
     ip_locations (get_lat_lon Runs.E0 "10.0.0.1" Trace_init (Sample.world_with None)).1.2
       !! "10.0.0.1"
     = Some (PyFloat Sample.F40, PyFloat Sample.Fm74)).
Proof.
  apply (stores_every_usable_pair Runs.E0 "10.0.0.1" Trace_init (Sample.world_with None)).
  - by intros ?%elem_of_empty.
  - reflexivity.
Defined.

(** ** The width of the line *)

Lemma int_of_float_nonneg (x : R) : (0 <= x)%R → (0 <= int_of_float x)%Z.
Proof.
  intros Hx. unfold int_of_float. destruct (Rle_dec 0 x) as [_|Hn]; [|done].
  destruct (base_Int_part x) as [_ Hlow].
  assert (-1 < IZR (Int_part x))%R as Hgt by lra.
  apply lt_IZR in Hgt. lia.
Qed.

Lemma int_of_float_0 : int_of_float 0 = 0%Z.
Proof.
  unfold int_of_float. destruct (Rle_dec 0 0) as [_|Hn]; [|exfalso; lra].
  symmetry. apply Int_part_spec. simpl. lra.
Qed.

(** The sample logarithm has the two properties, and [int] of it at 60 is 4. *)
Lemma sample_log_ok : log_ok Sample.B.
Proof.
  split; [reflexivity|]. intros n _.
  change (log_double Sample.B n) with (Sample.log_double n).
  unfold Sample.log_double. destruct (n =? 60)%Z; lra.
Qed.

Lemma sample_log_60 : int_of_float (log_double Sample.B 60) = 4%Z.
Proof.
  change (log_double Sample.B 60) with (4609822161187467 / 1125899906842624)%R.
  unfold int_of_float. destruct (Rle_dec 0 _) as [_|Hn]; [|exfalso; lra].
  symmetry. apply Int_part_spec. lra.
Qed.

Section Width.

Context {pyfloat : Type}.
Variable B : builtins pyfloat.
Variable E : env pyfloat.

Lemma trace_outcome ip hits byte_count timeout dn self w v res :
  ip_address E ip = inr v →
  probe E v (history w) ip max_ttl_traceroute 53 timeout = inr res →
  match width_of B byte_count with
  | inl e => (trace B E ip hits byte_count timeout dn self w).1.1 = inl e
  | inr x =>
      ∃ sg, (trace B E ip hits byte_count timeout dn self w).1.1 = inr sg
            ∧ go.line_width sg = x
  end.
Proof.
  intros Hip Hprobe. unfold trace. rewrite Hip, Hprobe.
  destruct (hop_loop _ _ _ _ _ _ _) as [[h1 s1] w1].
  destruct (terminal_hop _ _ _ _ _) as [[h2 s2] w2].
  destruct (host_name _ _ _ _) as [name w4].
  destruct (width_of B byte_count) as [e|x]; [done|]. by eexists.
Qed.

(** C9, as amended. When the probe has answered: for every
    [byte_count >= 1] the record is returned and its line width is half the
    integer part of the double that [math.log] returns; given that
    [math.log(1)] is [0.0] and that [math.log] is not negative from 1 on
    ([log_ok]), the width is not negative, and it is 0 for [byte_count = 1];
    for [byte_count <= 0] there is no guard, and [trace] raises the domain
    error of the logarithm. *)
Theorem width_needs_positive_byte_count ip hits byte_count timeout dn self w v res :
  ip_address E ip = inr v →
  probe E v (history w) ip max_ttl_traceroute 53 timeout = inr res →
  ((1 <= byte_count)%Z →
   ∃ sg, (trace B E ip hits byte_count timeout dn self w).1.1 = inr sg
         ∧ go.line_width sg = (IZR (int_of_float (log_double B byte_count)) / 2)%R
         ∧ (log_ok B →
            (0 <= go.line_width sg)%R
            ∧ (byte_count = 1%Z → go.line_width sg = 0%R)))
  ∧ ((byte_count <= 0)%Z →
     (trace B E ip hits byte_count timeout dn self w).1.1 = inl MathDomainError).
Proof.
  intros Hip Hprobe.
  pose proof (trace_outcome ip hits byte_count timeout dn self w v res Hip Hprobe) as Hout.
  split.
  - intros Hpos. rewrite width_of_positive in Hout by lia.
    destruct Hout as (sg & Htrace & Hwidth). exists sg. split_and!; [done..|].
    intros [Hone Hlog]. split.
    + rewrite Hwidth.
      pose proof (int_of_float_nonneg _ (Hlog byte_count Hpos)) as Hk.
      apply IZR_le in Hk. lra.
    + intros ->. rewrite Hwidth, Hone, int_of_float_0. lra.
  - intros Hneg. unfold width_of, math_log in Hout.
    by rewrite (proj2 (Z.ltb_ge 0 byte_count) Hneg) in Hout.
Qed.

End Width.

(** C9, as stated, fails: with [byte_count = 0] the probe is sent, the
    destination is resolved and cached, the route is logged, and then the
    domain error of [math.log] comes out of [trace]. *)
Lemma zero_byte_count_raises_domain_error :
  trace Sample.B Runs.E0 "10.0.0.1" 3 0 2 false Trace_init (Sample.world_with None)
  = (inl MathDomainError,
     mkTrace (<["10.0.0.1" := (PyFloat Sample.F40, PyFloat Sample.Fm74)]> ∅) ∅,
     World [Probe IPv4Address "10.0.0.1" 2; Lookup "10.0.0.1"; Logged INFO "Route to 10.0.0.1: " None]
           None true true).
Proof. reflexivity. Qed.

(** C9, as amended, at [byte_count = 1], at [byte_count = 60] and at
    [byte_count = -4]. *)
Lemma width_needs_positive_byte_count_witness :
  (∃ sg, (trace Sample.B Runs.E0 "10.0.0.1" 3 1 2 false Trace_init (Sample.world_with None)).1.1
         = inr sg
         ∧ go.line_width sg = 0%R)
  ∧ (∃ sg, (trace Sample.B Runs.E0 "10.0.0.1" 3 60 2 false Trace_init (Sample.world_with None)).1.1
           = inr sg
           ∧ go.line_width sg = 2%R)
  ∧ (trace Sample.B Runs.E0 "10.0.0.1" 3 (-4) 2 false Trace_init (Sample.world_with None)).1.1
    = inl MathDomainError.
Proof.
  split_and!.
  - destruct (proj1 (width_needs_positive_byte_count Sample.B Runs.E0 "10.0.0.1" 3 1 2 false
                       Trace_init (Sample.world_with None) IPv4Address [] eq_refl eq_refl))
      as (sg & Htrace & _ & Hlog); [lia|].
    exists sg. split; [done|]. by apply (Hlog sample_log_ok).
  - destruct (proj1 (width_needs_positive_byte_count Sample.B Runs.E0 "10.0.0.1" 3 60 2 false
                       Trace_init (Sample.world_with None) IPv4Address [] eq_refl eq_refl))
      as (sg & Htrace & Hwidth & _); [lia|].
    exists sg. split; [done|]. rewrite Hwidth, sample_log_60. lra.
  - apply (proj2 (width_needs_positive_byte_count Sample.B Runs.E0 "10.0.0.1" 3 (-4) 2 false
                    Trace_init (Sample.world_with None) IPv4Address [] eq_refl eq_refl)).
    lia.
Defined.

(** * More properties of the four methods *)

Lemma requests_app h1 h2 : requests (h1 ++ h2) = (requests h1 + requests h2)%nat.
Proof. unfold requests. by rewrite filter_app, length_app. Qed.

Lemma requests_emit_quiet ev w :
  is_lookup ev = false → requests (history (emit ev w)) = requests (history w).
Proof.
  intros Hq. rewrite history_emit, requests_app. unfold requests at 2.
  rewrite filter_cons_False, filter_nil by congruence. simpl. lia.
Qed.

Lemma requests_emit_lookup a w :
  requests (history (emit (Lookup a) w)) = S (requests (history w)).
Proof.
  rewrite history_emit, requests_app. unfold requests at 2.
  rewrite filter_cons_True by done. simpl. lia.
Qed.

Lemma lookups_of_emit_same a w :
  lookups_of a (history (emit (Lookup a) w)) = S (lookups_of a (history w)).
Proof.
  rewrite history_emit, lookups_of_app. unfold lookups_of at 2.
  rewrite filter_cons_True by done. simpl. lia.
Qed.

Section Growth.

Context {pyfloat : Type}.
Variable B : builtins pyfloat.
Variable E : env pyfloat.

Abbreviation value := (pyval pyfloat).
Abbreviation resolver := (Trace pyfloat).

Lemma grows_trans (s1 s2 s3 : resolver) : grows s1 s2 → grows s2 s3 → grows s1 s3.
Proof. intros [H1 H2] [H3 H4]. split; auto. Qed.

Lemma grows_resolution a (self : resolver) w r self' w' :
  resolution E a self w r self' w' → grows self self'.
Proof.
  intros Hres. destruct Hres; try apply grows_refl.
  - split; simpl; [|done]. intros b Hb. by apply elem_of_union_r.
  - split; simpl; [done|]. intros b Hb. apply lookup_insert_is_Some'. by right.
Qed.

Lemma grows_read_from_file (self : resolver) w : grows self (read_from_file B self w).1.
Proof.
  split.
  - intros a Ha. by rewrite read_from_file_blacklist.
  - intros a Ha. unfold read_from_file.
    destruct (cache_file w) as [raw|]; [|done].
    destruct (cache_readable w); [|done].
    destruct (Text.readline _) as [hd rest].
    pose proof (load_lines_grows B (Text.readlines rest) _ a Ha) as Hg.
    by destruct (load_lines B _ _) as [locations err].
Qed.

(** X1. No call ever evicts: after any calls of the four methods, every
    address that was blacklisted is still blacklisted and every address that
    was cached is still cached. *)
Theorem run_never_evicts cs (self : resolver) w : grows self (run B E cs self w).1.
Proof.
  destruct (run B E cs self w) as [self' w'] eqn:Hrun. simpl.
  eapply (preserved_run_loading B E (λ s _, grows self s)); [| | | |done|].
  - intros a s w0 r s' w0' Hg Hres. eapply grows_trans; [done|].
    by eapply grows_resolution.
  - done.
  - done.
  - intros s0 w0 s1 w1 Hread Hg. eapply grows_trans; [done|].
    pose proof (grows_read_from_file s0 w0) as Hg'. by rewrite Hread in Hg'.
  - apply grows_refl.
Qed.

(** X2. [get_lat_lon a] touches one address: for every other address the
    cache entry, the membership in the blacklist and the number of requests
    sent are what they were; for [a] itself it sends no request when [a] is
    blacklisted or cached, and exactly one otherwise. *)
Theorem get_lat_lon_touches_one_address a (self : resolver) w :
  (∀ b, b ≠ a →
     ip_locations (get_lat_lon E a self w).1.2 !! b = ip_locations self !! b
     ∧ (b ∈ blacklisted_ips (get_lat_lon E a self w).1.2 ↔ b ∈ blacklisted_ips self)
     ∧ lookups_of b (history (get_lat_lon E a self w).2) = lookups_of b (history w))
  ∧ lookups_of a (history (get_lat_lon E a self w).2)
    = (lookups_of a (history w)
       + (if bool_decide (a ∈ blacklisted_ips self ∨ is_Some (ip_locations self !! a))
          then 0 else 1))%nat.
Proof.
  pose proof (get_lat_lon_resolution E a self w) as Hres.
  destruct (get_lat_lon E a self w) as [[r self'] w']. cbn [fst snd] in *.
  destruct Hres as [Hbl|c Hbl Hloc|e Hbl Hloc Hans|Hbl Hloc Hans|lat lon Hbl Hloc Hans].
  - split; [done|]. rewrite bool_decide_eq_true_2 by by left. lia.
  - split; [done|]. rewrite bool_decide_eq_true_2 by (right; by rewrite Hloc). lia.
  - split.
    + intros b Hb. by rewrite lookups_of_warned.
    + rewrite bool_decide_eq_false_2.
      2:{ intros [?|Hs]; [done|]. rewrite Hloc in Hs. by destruct Hs. }
      unfold warned, logging. rewrite lookups_of_emit_quiet by done.
      rewrite lookups_of_emit_same. lia.
  - split.
    + intros b Hb. cbn [ip_locations blacklisted_ips]. split_and!; [done| |by rewrite lookups_of_emit_other].
      rewrite elem_of_union, elem_of_singleton. split; [by intros [?|?]|by right].
    + rewrite bool_decide_eq_false_2.
      2:{ intros [?|Hs]; [done|]. rewrite Hloc in Hs. by destruct Hs. }
      rewrite lookups_of_emit_same. lia.
  - split.
    + intros b Hb. cbn [ip_locations blacklisted_ips]. split_and!; [|done|by rewrite lookups_of_emit_other].
      by rewrite lookup_insert_ne.
    + rewrite bool_decide_eq_false_2.
      2:{ intros [?|Hs]; [done|]. rewrite Hloc in Hs. by destruct Hs. }
      rewrite lookups_of_emit_same. lia.
Qed.

(** X3. What [get_lat_lon a] returns is what the cache holds afterwards: a
    pair that is returned is the entry of [a], and [a] is not blacklisted;
    when nothing is returned the cache is unchanged. *)
Theorem get_lat_lon_returns_the_entry a (self : resolver) w :
  match (get_lat_lon E a self w).1.1 with
  | Some c =>
      ip_locations (get_lat_lon E a self w).1.2 !! a = Some c
      ∧ a ∉ blacklisted_ips (get_lat_lon E a self w).1.2
  | None => ip_locations (get_lat_lon E a self w).1.2 = ip_locations self
  end.
Proof.
  pose proof (get_lat_lon_resolution E a self w) as Hres.
  destruct (get_lat_lon E a self w) as [[r self'] w']. cbn [fst snd] in *.
  destruct Hres; try done. cbn [ip_locations blacklisted_ips].
  split; [apply lookup_insert_eq|done].
Qed.

End Growth.

Section TraceEffects.

Context {pyfloat : Type}.
Variable B : builtins pyfloat.
Variable E : env pyfloat.

Abbreviation value := (pyval pyfloat).
Abbreviation resolver := (Trace pyfloat).

Lemma host_name_requests dn ip w :
  requests (history (host_name E dn ip w).2) = requests (history w).
Proof.
  unfold host_name. destruct dn; [|done].
  destruct (gethostbyaddr E (history w) ip); cbn [snd].
  - unfold logging. by rewrite !requests_emit_quiet.
  - by rewrite requests_emit_quiet.
Qed.

Lemma get_lat_lon_requests a (self : resolver) w :
  (requests (history (get_lat_lon E a self w).2) ≤ S (requests (history w)))%nat.
Proof.
  pose proof (get_lat_lon_resolution E a self w) as Hres.
  destruct (get_lat_lon E a self w) as [[r self'] w']. cbn [fst snd] in *.
  destruct Hres; try lia.
  - unfold warned, logging. rewrite requests_emit_quiet by done.
    rewrite requests_emit_lookup. lia.
  - rewrite requests_emit_lookup. lia.
  - rewrite requests_emit_lookup. lia.
Qed.

Lemma resolve_all_requests addrs : ∀ (self : resolver) w,
  (requests (history (resolve_all E addrs self w).2)
   ≤ requests (history w) + length addrs)%nat.
Proof.
  induction addrs as [|a addrs IH]; intros self w; [simpl; lia|].
  rewrite resolve_all_cons.
  pose proof (get_lat_lon_requests a self w) as Hone.
  destruct (get_lat_lon E a self w) as [[r s0] w0]. cbn [snd] in Hone.
  pose proof (IH s0 w0) as Hrest.
  destruct (resolve_all E addrs s0 w0) as [[rs s1] w1]. cbn [snd length] in *. lia.
Qed.

Lemma resolved_length addrs : ∀ (outs : list (option (value * value))),
  (length (resolved addrs outs) ≤ length addrs)%nat.
Proof.
  induction addrs as [|a addrs IH]; intros outs; [simpl; lia|].
  destruct outs as [|[c|] outs]; simpl; [lia| |].
  - pose proof (IH outs). lia.
  - pose proof (IH outs). lia.
Qed.

Lemma get_lat_lon_settled a (self : resolver) w :
  a ∈ blacklisted_ips self ∨ is_Some (ip_locations self !! a) →
  (get_lat_lon E a self w).1.2 = self ∧ (get_lat_lon E a self w).2 = w.
Proof.
  intros Hset.
  pose proof (get_lat_lon_resolution E a self w) as Hres.
  destruct (get_lat_lon E a self w) as [[r self'] w']. cbn [fst snd] in *.
  destruct Hres as [?|? ? ?|? ? Hloc ?|? Hloc ?|? ? ? Hloc ?]; try done;
    destruct Hset as [?|Hs]; try done; rewrite Hloc in Hs; by destruct Hs.
Qed.

Lemma resolve_all_settled addrs : ∀ (self : resolver) w,
  all_settled addrs self →
  (resolve_all E addrs self w).1.2 = self ∧ (resolve_all E addrs self w).2 = w.
Proof.
  induction addrs as [|a addrs IH]; intros self w Hall; [done|].
  rewrite resolve_all_cons.
  destruct (get_lat_lon_settled a self w) as [Hs Hw].
  { apply Hall. by left. }
  destruct (get_lat_lon E a self w) as [[r s0] w0]. cbn [fst snd] in *. subst.
  destruct (IH self w) as [Hs Hw].
  { intros b Hb. apply Hall. by right. }
  destruct (resolve_all E addrs self w) as [[rs s1] w1]. cbn [fst snd] in *. by subst.
Qed.

(** The resolver and the requests that [trace] leaves are those of the
    replies resolved in order and of the terminal hop, whatever the record. *)
Lemma trace_effects ip hits byte_count timeout dn (self : resolver) w v res outs self1 w1 :
  ip_address E ip = inr v →
  probe E v (history w) ip max_ttl_traceroute 53 timeout = inr res →
  resolve_all E res.*2 self (emit (Probe v ip timeout) w) = (outs, self1, w1) →
  (trace B E ip hits byte_count timeout dn self w).1.2
  = (terminal E ip (resolved res.*2 outs) self1 w1).1.2
  ∧ requests (history (trace B E ip hits byte_count timeout dn self w).2)
    = requests (history (terminal E ip (resolved res.*2 outs) self1 w1).2)
  ∧ ∀ a, lookups_of a (history (trace B E ip hits byte_count timeout dn self w).2)
         = lookups_of a (history (terminal E ip (resolved res.*2 outs) self1 w1).2).
Proof.
  intros Hip Hprobe Hall.
  destruct (hop_loop_fields B E dn res (Hops [] [] [] ∅ ("Route to " +:+ ip +:+ ": ") 1)
              _ _ _ _ _ Hall)
    as (h1 & Hloop & _ & _ & _ & Hrecv & _).
  cbn [received] in Hrecv.
  unfold trace. rewrite Hip, Hprobe, Hloop.
  assert ((terminal_hop E ip h1 self1 w1).1.2
          = (terminal E ip (resolved res.*2 outs) self1 w1).1.2
          ∧ (terminal_hop E ip h1 self1 w1).2
            = (terminal E ip (resolved res.*2 outs) self1 w1).2) as [Hs Hw].
  { unfold terminal, terminal_hop.
    destruct (decide (ip ∈ (resolved res.*2 outs).*1)) as [Hin|Hout].
    - by rewrite bool_decide_eq_true_2 by (apply Hrecv; by left).
    - rewrite bool_decide_eq_false_2.
      2:{ intros [?|Hin]%Hrecv; [done|]. by apply elem_of_empty in Hin. }
      destruct (get_lat_lon E ip self1 w1) as [[[[lat lon]|] s] w0]; done. }
  destruct (terminal_hop E ip h1 self1 w1) as [[h2 s2] w2]. cbn [fst snd] in Hs, Hw.
  pose proof (host_name_requests dn ip (logging INFO (msg h2) None w2)) as Hreq.
  pose proof (host_name_quiet E dn ip (logging INFO (msg h2) None w2)) as Hquiet.
  destruct (host_name E dn ip (logging INFO (msg h2) None w2)) as [name w4].
  cbn [snd] in Hreq, Hquiet. unfold logging in Hreq, Hquiet.
  rewrite requests_emit_quiet in Hreq by done.
  assert (∀ a, lookups_of a (history w4) = lookups_of a (history w2)) as Hquiet'.
  { intros a. rewrite Hquiet. by apply lookups_of_emit_quiet. }
  rewrite <- Hs, <- Hw.
  destruct (width_of B byte_count); cbn [fst snd]; by split_and!.
Qed.

(** X4. One [trace] sends the provider at most one request for each reply
    and one for the destination. *)
Theorem trace_requests_are_bounded ip hits byte_count timeout dn (self : resolver) w v res :
  ip_address E ip = inr v →
  probe E v (history w) ip max_ttl_traceroute 53 timeout = inr res →
  (requests (history (trace B E ip hits byte_count timeout dn self w).2)
   ≤ requests (history w) + length res + 1)%nat.
Proof.
  intros Hip Hprobe.
  pose proof (resolve_all_requests res.*2 self (emit (Probe v ip timeout) w)) as Hloop.
  destruct (resolve_all E res.*2 self (emit (Probe v ip timeout) w)) as [[outs self1] w1] eqn:Hall.
  destruct (trace_effects ip hits byte_count timeout dn self w v res outs self1 w1
              Hip Hprobe Hall) as (_ & -> & _).
  cbn [snd] in Hloop. rewrite requests_emit_quiet, length_fmap in Hloop by done.
  unfold terminal. destruct (decide _); cbn [snd]; [lia|].
  pose proof (get_lat_lon_requests ip self1 w1). lia.
Qed.

(** X5. When every replying address and the destination are already
    blacklisted or cached, [trace] sends the provider nothing and leaves the
    resolver as it was. *)
Theorem trace_of_settled_addresses_is_silent
  ip hits byte_count timeout dn (self : resolver) w v res :
  ip_address E ip = inr v →
  probe E v (history w) ip max_ttl_traceroute 53 timeout = inr res →
  all_settled (ip :: res.*2) self →
  (trace B E ip hits byte_count timeout dn self w).1.2 = self
  ∧ requests (history (trace B E ip hits byte_count timeout dn self w).2)
    = requests (history w).
Proof.
  intros Hip Hprobe Hset.
  destruct (resolve_all_settled res.*2 self (emit (Probe v ip timeout) w)) as [Hs Hw].
  { intros a Ha. apply Hset. by right. }
  destruct (resolve_all E res.*2 self (emit (Probe v ip timeout) w)) as [[outs self1] w1] eqn:Hall.
  cbn [fst snd] in Hs, Hw. subst.
  destruct (trace_effects ip hits byte_count timeout dn self w v res outs self _
              Hip Hprobe Hall) as (-> & -> & _).
  unfold terminal. destruct (decide _); cbn [fst snd].
  - by rewrite requests_emit_quiet.
  - destruct (get_lat_lon_settled ip self (emit (Probe v ip timeout) w)) as [-> ->].
    { apply Hset. by left. }
    by rewrite requests_emit_quiet.
Qed.

(** X6. The resolver that [trace] leaves and the requests it sends do not
    depend on [hits], [byte_count] and [display_name]: a call that ends in
    the domain error of the width has cached and blacklisted what a call that
    returns a record does. *)
Theorem trace_effects_ignore_presentation
  ip timeout (self : resolver) w hits byte_count dn hits' byte_count' dn' :
  (trace B E ip hits byte_count timeout dn self w).1.2
  = (trace B E ip hits' byte_count' timeout dn' self w).1.2
  ∧ ∀ a, lookups_of a (history (trace B E ip hits byte_count timeout dn self w).2)
         = lookups_of a (history (trace B E ip hits' byte_count' timeout dn' self w).2).
Proof.
  destruct (ip_address E ip) as [e|v] eqn:Hip.
  { unfold trace. by rewrite Hip. }
  destruct (probe E v (history w) ip max_ttl_traceroute 53 timeout) as [e|res] eqn:Hprobe.
  { unfold trace. by rewrite Hip, Hprobe. }
  destruct (resolve_all E res.*2 self (emit (Probe v ip timeout) w)) as [[outs self1] w1] eqn:Hall.
  destruct (trace_effects ip hits byte_count timeout dn self w v res outs self1 w1
              Hip Hprobe Hall) as (-> & _ & Hl).
  destruct (trace_effects ip hits' byte_count' timeout dn' self w v res outs self1 w1
              Hip Hprobe Hall) as (-> & _ & Hl').
  split; [done|]. intros a. by rewrite Hl, Hl'.
Qed.

(** X7. [trace] returns a record exactly when the address is a valid
    literal, the probe does not raise and [byte_count] is positive; a
    reverse DNS query that fails never stands in the way.  An invalid address
    ends the call with nothing done; a probe that raises ends it with the
    resolver untouched and no request sent. *)
Theorem trace_returns_a_record_iff ip hits byte_count timeout dn (self : resolver) w :
  ((∃ sg, (trace B E ip hits byte_count timeout dn self w).1.1 = inr sg)
   ↔ ∃ v res, ip_address E ip = inr v
              ∧ probe E v (history w) ip max_ttl_traceroute 53 timeout = inr res
              ∧ (0 < byte_count)%Z)
  ∧ (∀ e, ip_address E ip = inl e →
          trace B E ip hits byte_count timeout dn self w = (inl e, self, w))
  ∧ (∀ v e, ip_address E ip = inr v →
            probe E v (history w) ip max_ttl_traceroute 53 timeout = inl e →
            trace B E ip hits byte_count timeout dn self w
            = (inl e, self, emit (Probe v ip timeout) w)).
Proof.
  split_and!.
  - unfold trace. destruct (ip_address E ip) as [e|v].
    { split; [by intros [sg ?]|]. intros (v & res & Hv & _). discriminate Hv. }
    destruct (probe E v (history w) ip max_ttl_traceroute 53 timeout) as [e|res] eqn:Hp.
    { split; [by intros [sg ?]|]. intros (v' & res & [= <-] & Hres & _). congruence. }
    destruct (hop_loop _ _ _ _ _ _ _) as [[h1 s1] w1].
    destruct (terminal_hop _ _ _ _ _) as [[h2 s2] w2].
    destruct (host_name _ _ _ _) as [name w4].
    destruct (Z.ltb_spec 0 byte_count) as [Hpos|Hneg].
    + rewrite width_of_positive by done. split; [|by eexists]. intros _. by exists v, res.
    + unfold width_of, math_log. rewrite (proj2 (Z.ltb_ge 0 byte_count) Hneg). simpl.
      split; [by intros [sg ?]|]. intros (v' & res' & _ & _ & Hpos). lia.
  - intros e Hip. unfold trace. by rewrite Hip.
  - intros v e Hip Hprobe. unfold trace. by rewrite Hip, Hprobe.
Qed.

(** X8. In a record that [trace] returns the latitudes, the longitudes
    and the labels are lists of one length, at most the number of replies
    plus one, and the mode is "markers" exactly when that length is 1. *)
Theorem trace_record_is_aligned ip hits byte_count timeout dn (self : resolver) w v res :
  ip_address E ip = inr v →
  probe E v (history w) ip max_ttl_traceroute 53 timeout = inr res →
  (0 < byte_count)%Z →
  ∃ sg, (trace B E ip hits byte_count timeout dn self w).1.1 = inr sg
        ∧ length (go.lat sg) = length (go.text sg)
        ∧ length (go.lon sg) = length (go.text sg)
        ∧ (length (go.text sg) ≤ length res + 1)%nat
        ∧ (go.mode sg = "markers" ↔ length (go.text sg) = 1%nat).
Proof.
  intros Hip Hprobe Hpos.
  destruct (resolve_all E res.*2 self (emit (Probe v ip timeout) w)) as [[outs self1] w1] eqn:Hall.
  destruct (terminal E ip (resolved res.*2 outs) self1 w1) as [[extra self2] w2] eqn:Hterm.
  destruct (route_assembled B E ip hits byte_count timeout dn self w v res outs self1 w1
              extra self2 w2 Hip Hprobe Hpos Hall Hterm)
    as (sg & w' & Htrace & Hlat & Hlon & Htext & Hmode & _).
  exists sg. rewrite Htrace. split; [done|].
  pose proof (resolved_length res.*2 outs) as Hlen. rewrite length_fmap in Hlen.
  assert (length (go.lat sg) = length (go.text sg)) as Hlt.
  { rewrite Hlat, Htext, !length_app, !length_fmap, labels_length. by destruct extra. }
  assert (length (go.lon sg) = length (go.text sg)) as Hlo.
  { rewrite Hlon, Htext, !length_app, !length_fmap, labels_length. by destruct extra. }
  split_and!; [done..| |].
  - rewrite Htext, length_app, labels_length. destruct extra; simpl; lia.
  - rewrite Hmode, Hlt. unfold mode_of.
    destruct (Nat.eqb_spec (length (go.text sg)) 1) as [->|Hne]; [done|].
    split; [discriminate|done].
Qed.

End TraceEffects.

(** ** More facts about text *)

Module MoreTextFacts.
Import Text.

#[local] Arguments String.append !s1 s2 : simpl nomatch.

Lemma split_nonempty (sep : ascii) (s : string) : split sep s ≠ [].
Proof.
  destruct s as [|c s]; simpl; [done|].
  destruct (Ascii.eqb c sep); [done|]. by destruct (split sep s).
Qed.

Lemma split_length (sep : ascii) (s : string) :
  length (split sep s) = S (length (filter (λ c, c = sep) (chars s))).
Proof.
  induction s as [|c s IH]; [done|]. simpl.
  destruct (Ascii.eqb_spec c sep) as [->|Hne].
  - rewrite filter_cons_True by done. simpl. by rewrite IH.
  - rewrite filter_cons_False by done.
    pose proof (split_nonempty sep s) as Hne'.
    destruct (split sep s) as [|p ps]; [done|]. by rewrite <- IH.
Qed.

(** The first part of a split has no separator, and the text is that part,
    the separator, and a rest that splits into the other parts. *)
Lemma split_first (sep : ascii) (s : string) : ∀ p q ps,
  split sep s = p :: q :: ps →
  Forall (λ c, c ≠ sep) (chars p)
  ∧ ∃ rest, s = p +:+ String sep rest ∧ split sep rest = q :: ps.
Proof.
  induction s as [|c s IH]; intros p q ps Hs; [done|]. simpl in Hs.
  destruct (Ascii.eqb_spec c sep) as [->|Hne].
  - simplify_eq. split; [by constructor|]. by exists s.
  - destruct (split sep s) as [|p' ps'] eqn:Hsplit; [done|]. simplify_eq.
    destruct (IH p' q ps eq_refl) as [Hp (rest & -> & Hrest)].
    split; [by constructor|]. by exists rest.
Qed.

Lemma universal_newlines_no_return (s : string) :
  Forall (λ c, c ≠ CR) (chars (universal_newlines s))
  ∧ ∀ c, Forall (λ c', c' ≠ CR) (chars (universal_newlines (String c s))).
Proof.
  induction s as [|c' s [IH1 IH2]].
  - split; [by constructor|]. intros c. simpl.
    destruct (Ascii.eqb_spec c CR) as [->|Hne]; by repeat constructor.
  - split; [apply IH2|]. intros c.
    change (universal_newlines (String c (String c' s)))
      with (if Ascii.eqb c CR
            then if Ascii.eqb c' LF then String LF (universal_newlines s)
                 else String LF (universal_newlines (String c' s))
            else String c (universal_newlines (String c' s))).
    destruct (Ascii.eqb_spec c CR) as [->|Hne].
    + destruct (Ascii.eqb c' LF); simpl; constructor; try done; apply IH2.
    + simpl. constructor; [done|]. apply IH2.
Qed.

Lemma readline_rest (P : ascii → Prop) (s : string) :
  Forall P (chars s) → Forall P (chars (readline s).2).
Proof.
  induction s as [|c s IH]; [done|]. intros [Hc Hs]%Forall_cons. simpl.
  destruct (Ascii.eqb c LF); [done|].
  specialize (IH Hs). by destruct (readline s).
Qed.

Lemma readlines_chars (P : ascii → Prop) (s : string) :
  Forall P (chars s) → Forall (λ l, Forall P (chars l)) (readlines s).
Proof.
  induction s as [|c s IH]; [by constructor|]. intros [Hc Hs]%Forall_cons. simpl.
  specialize (IH Hs). destruct (Ascii.eqb c LF).
  - constructor; [by repeat constructor|done].
  - destruct (readlines s) as [|l ls]; [by repeat constructor|].
    apply Forall_cons in IH as [Hl Hls]. constructor; [by constructor|done].
Qed.

(** A line of [readlines] has its only line feed, if any, at its end. *)
Lemma readlines_line_feed (s : string) :
  Forall (λ l, ∃ body, Forall (λ c, c ≠ LF) (chars body)
                        ∧ (l = body ∨ l = body +:+ String LF ""))
         (readlines s).
Proof.
  induction s as [|c s IH]; [by constructor|]. simpl.
  destruct (Ascii.eqb_spec c LF) as [->|Hne].
  - constructor; [|done]. exists "". split; [by constructor|by right].
  - destruct (readlines s) as [|l ls].
    + repeat constructor. exists (String c ""). split; [by repeat constructor|by left].
    + apply Forall_cons in IH as [(body & Hbody & Hl) Hls]. constructor; [|done].
      exists (String c body). split; [by constructor|].
      destruct Hl as [->| ->]; [by left|by right].
Qed.

(** What comes before a character of a list lies before the last element. *)
Lemma before_the_last {A} (P : A → Prop) (l1 r b : list A) (x y : A) :
  Forall P b → l1 ++ x :: r = b ++ [y] → Forall P l1.
Proof.
  intros Hb Heq. destruct r as [|z r _] using rev_ind.
  - apply app_inj_tail in Heq as [-> _]. done.
  - rewrite app_comm_cons, app_assoc in Heq.
    apply app_inj_tail in Heq as [<- _]. by apply Forall_app in Hb as [? _].
Qed.

End MoreTextFacts.

(** ** More on loading and saving *)

Section Loading.

Context {pyfloat : Type}.
Variable B : builtins pyfloat.

Abbreviation value := (pyval pyfloat).
Abbreviation resolver := (Trace pyfloat).

Lemma load_lines_accepted lines : ∀ (m : gmap string (value * value)),
  (load_lines B lines m).1 = foldl insert_row m (accepted B lines).
Proof.
  induction lines as [|line lines IH]; intros m; [done|]. simpl.
  destruct (parse_line B line) as [e|[ip c]]; [done|]. by rewrite IH.
Qed.

(** What [read_from_file] leaves in the cache. *)
Lemma read_from_file_locations (self : resolver) w :
  ip_locations (read_from_file B self w).1
  = match cache_file w with
    | Some raw =>
        if cache_readable w
        then foldl insert_row (ip_locations self) (accepted B (body_lines raw))
        else ip_locations self
    | None => ip_locations self
    end.
Proof.
  unfold read_from_file, body_lines. destruct (cache_file w) as [raw|]; [|done].
  destruct (cache_readable w); [|done].
  destruct (Text.readline (Text.universal_newlines raw)) as [hd rest]. cbn [snd].
  pose proof (load_lines_accepted (Text.readlines rest) (ip_locations self)) as Hl.
  by destruct (load_lines B _ _) as [locations err].
Qed.

(** [read_from_file] leaves the file and its permissions alone. *)
Lemma read_from_file_file (self : resolver) w :
  cache_file (read_from_file B self w).2 = cache_file w
  ∧ cache_readable (read_from_file B self w).2 = cache_readable w
  ∧ cache_writable (read_from_file B self w).2 = cache_writable w.
Proof.
  unfold read_from_file. destruct (cache_file w) as [raw|] eqn:Hraw; [|done].
  destruct (cache_readable w) eqn:Hr; [|done].
  destruct (Text.readline _) as [hd rest].
  by destruct (load_lines B _ _) as [locations [e|]].
Qed.

Lemma foldl_insert_row_union (rows : list (string * (value * value))) : ∀ m,
  foldl insert_row m rows = list_to_map (reverse rows) ∪ m.
Proof.
  induction rows as [|[k v] rows IH]; intros m.
  - simpl. by rewrite (left_id_L ∅ (∪)).
  - simpl. rewrite IH, reverse_cons, list_to_map_app. unfold insert_row. simpl.
    rewrite <- (assoc_L (∪)). f_equal.
    by rewrite insert_union_singleton_l, insert_empty.
Qed.

Lemma foldl_insert_row_twice (rows : list (string * (value * value))) m :
  foldl insert_row (foldl insert_row m rows) rows = foldl insert_row m rows.
Proof.
  rewrite !foldl_insert_row_union, (assoc_L (∪)). f_equal. apply (idemp_L (∪)).
Qed.

Lemma lookup_foldl_insert_row (rows : list (string * (value * value))) : ∀ m a c,
  foldl insert_row m rows !! a = Some c → m !! a = Some c ∨ (a, c) ∈ rows.
Proof.
  induction rows as [|[k v] rows IH]; intros m a c Ha; [by left|].
  simpl in Ha. apply IH in Ha as [Ha|Ha]; [|right; by right].
  unfold insert_row in Ha. simpl in Ha.
  apply lookup_insert_Some in Ha as [[<- <-]|[_ Ha]]; [right; by left|by left].
Qed.

(** X9. Loading twice is loading once: a second [read_from_file] of the
    same file leaves the cache and the blacklist as the first one left them. *)
Theorem loading_twice_is_loading_once (self : resolver) w :
  ip_locations (read_from_file B (read_from_file B self w).1 (read_from_file B self w).2).1
  = ip_locations (read_from_file B self w).1
  ∧ blacklisted_ips (read_from_file B (read_from_file B self w).1 (read_from_file B self w).2).1
    = blacklisted_ips (read_from_file B self w).1.
Proof.
  split; [|by rewrite read_from_file_blacklist].
  rewrite (read_from_file_locations (read_from_file B self w).1).
  destruct (read_from_file_file self w) as (-> & -> & _).
  rewrite (read_from_file_locations self w).
  destruct (cache_file w) as [raw|]; [|done].
  destruct (cache_readable w); [|done]. apply foldl_insert_row_twice.
Qed.

(** What an accepted line looks like. *)
Lemma parse_line_fields line ip lat lon :
  parse_line B line = inr (ip, (lat, lon)) →
  length (Text.split Text.comma line) = 3%nat
  ∧ (∃ rest, line = ip +:+ String Text.comma rest)
  ∧ Forall (λ c, c ≠ Text.comma) (Text.chars ip)
  ∧ is_float lat ∧ is_float lon.
Proof.
  unfold parse_line. intros Hparse.
  destruct (Text.split Text.comma line) as [|p [|q [|r [|? ?]]]] eqn:Hsplit; try done.
  destruct (MoreTextFacts.split_first Text.comma line p q [r] Hsplit)
    as [Hp (rest & Hline & _)].
  unfold py_float in Hparse.
  destruct (float_of_literal B (Text.strip q)) as [x|]; [|done].
  destruct (float_of_literal B (Text.strip r)) as [y|]; [|done].
  simpl in Hparse. simplify_eq. split_and!; [done|by exists rest|done..].
Qed.

Lemma accepted_rows_are_float_rows (lines : list string) :
  Forall (λ l, Forall (λ c, c ≠ Text.CR) (Text.chars l)) lines →
  Forall (λ l, ∃ body, Forall (λ c, c ≠ Text.LF) (Text.chars body)
                        ∧ (l = body ∨ l = body +:+ String Text.LF "")) lines →
  Forall float_row (accepted B lines).
Proof.
  induction lines as [|line lines IH]; [by constructor|].
  intros [Hcr Hcrs]%Forall_cons [(body & Hbody & Hline) Hlfs]%Forall_cons. simpl.
  destruct (parse_line B line) as [e|[ip [lat lon]]] eqn:Hparse; [by constructor|].
  constructor; [|by apply IH].
  destruct (parse_line_fields line ip lat lon Hparse)
    as (_ & (rest & Hrest) & Hcomma & Hlat & Hlon).
  split_and!; [|done..]. cbn [fst].
  assert (Forall (λ c, c ≠ Text.CR) (Text.chars ip)) as Hipcr.
  { rewrite Hrest in Hcr. by apply Forall_chars_app in Hcr as [? _]. }
  assert (Forall (λ c, c ≠ Text.LF) (Text.chars ip)) as Hiplf.
  { destruct Hline as [->| ->].
    - rewrite Hrest in Hbody. by apply Forall_chars_app in Hbody as [? _].
    - apply (f_equal Text.chars) in Hrest. rewrite !TextFacts.chars_app in Hrest.
      simpl in Hrest. symmetry in Hrest.
      by eapply MoreTextFacts.before_the_last. }
  apply Forall_forall. intros c Hc. split_and!.
  - by eapply Forall_forall in Hcomma.
  - by eapply Forall_forall in Hiplf.
  - by eapply Forall_forall in Hipcr.
Qed.

Lemma body_rows_are_float_rows raw : Forall float_row (accepted B (body_lines raw)).
Proof.
  unfold body_lines. apply accepted_rows_are_float_rows.
  - apply MoreTextFacts.readlines_chars, MoreTextFacts.readline_rest.
    apply MoreTextFacts.universal_newlines_no_return.
  - apply MoreTextFacts.readlines_line_feed.
Qed.

(** X10. What [read_from_file] stores is well formed: every entry of the
    cache after a load either was there before with the same value, or is a
    pair of floats at an address without comma and without line break. *)
Theorem loaded_entries_are_float_rows (self : resolver) w a c :
  ip_locations (read_from_file B self w).1 !! a = Some c →
  ip_locations self !! a = Some c ∨ float_row (a, c).
Proof.
  rewrite read_from_file_locations. destruct (cache_file w) as [raw|]; [|by left].
  destruct (cache_readable w); [|by left].
  intros [Hold|Hnew]%lookup_foldl_insert_row; [by left|right].
  pose proof (body_rows_are_float_rows raw) as Hall.
  by eapply Forall_forall in Hall.
Qed.

(** X12. A line is stored only if it has exactly two commas; the address
    is then the text before the first comma, as it is, and the two values are
    floats. *)
Theorem row_needs_two_commas line ip lat lon :
  parse_line B line = inr (ip, (lat, lon)) →
  commas line = 2%nat
  ∧ (∃ rest, line = ip +:+ String Text.comma rest)
  ∧ Forall (λ c, c ≠ Text.comma) (Text.chars ip)
  ∧ is_float lat ∧ is_float lon.
Proof.
  intros (Hlen & Hrest & Hip & Hlat & Hlon)%parse_line_fields.
  rewrite MoreTextFacts.split_length in Hlen. unfold commas.
  split_and!; [lia|done..].
Qed.

Lemma foldl_insert_row_fresh (rows : list (string * (value * value))) : ∀ m a,
  a ∉ rows.*1 → foldl insert_row m rows !! a = m !! a.
Proof.
  induction rows as [|[k v] rows IH]; intros m a Ha; [done|].
  rewrite fmap_cons, not_elem_of_cons in Ha. destruct Ha as [Hk Ha]. simpl in Hk.
  simpl. rewrite IH by done. unfold insert_row. simpl. by rewrite lookup_insert_ne.
Qed.

(** X16. The last row wins: of the rows that a load stores, the last one
    for an address is what the cache then holds for it, whatever earlier rows
    and the resolver held. *)
Theorem last_row_wins (self : resolver) w raw rows1 a c rows2 :
  cache_file w = Some raw →
  cache_readable w = true →
  accepted B (body_lines raw) = rows1 ++ (a, c) :: rows2 →
  a ∉ rows2.*1 →
  ip_locations (read_from_file B self w).1 !! a = Some c.
Proof.
  intros Hraw Hr Hrows Ha. rewrite read_from_file_locations, Hraw, Hr, Hrows.
  rewrite foldl_app. simpl. rewrite foldl_insert_row_fresh by done.
  unfold insert_row. simpl. by rewrite lookup_insert_eq.
Qed.

Hypothesis Htext : float_text_ok B.
Hypothesis Hfloat : float_round_trips B.

(** The rows that [write_to_file] writes for float rows load as they are. *)
Lemma saved_rows_load (self : resolver) w :
  cache_writable w = true →
  cache_readable w = true →
  Forall float_row (map_to_list (ip_locations self)) →
  ip_locations (read_from_file B Trace_init (write_to_file B self w).2).1
  = ip_locations self.
Proof.
  intros Hw Hr Hall. rewrite read_from_file_locations.
  unfold write_to_file. rewrite Hw. cbn [snd store cache_file cache_readable].
  rewrite Hr. unfold body_lines.
  rewrite TextFacts.universal_newlines_id.
  2:{ apply Forall_chars_app. split; [by repeat constructor|by apply rows_no_return]. }
  rewrite readline_header. cbn [snd]. rewrite readlines_rows by done.
  rewrite <- load_lines_accepted.
  rewrite (load_lines_all B _ (map_to_list (ip_locations self))).
  - apply foldl_insert_row_map.
  - apply Forall2_fmap_l, Forall_Forall2_diag.
    eapply Forall_impl; [done|]. intros row Hrow. by apply parse_cache_row.
Qed.


(** X15. What [write_to_file] writes: the header, and after it one line
    for each cached address, [ip, lat, lon] with a line feed, and nothing
    else. *)
Theorem saved_file_has_a_row_per_entry (self : resolver) w :
  cache_writable w = true →
  (∀ a c, ip_locations self !! a = Some c → float_row (a, c)) →
  ∃ raw, cache_file (write_to_file B self w).2 = Some raw
         ∧ (Text.readline (Text.universal_newlines raw)).1 = cache_header
         ∧ length (body_lines raw) = size (ip_locations self)
         ∧ ∀ line, line ∈ body_lines raw
                   ↔ ∃ a c, ip_locations self !! a = Some c ∧ line = cache_row B (a, c).
Proof.
  intros Hw Hrows.
  assert (Forall float_row (map_to_list (ip_locations self))) as Hall.
  { apply Forall_forall. intros [a c] Hin. by apply Hrows, elem_of_map_to_list. }
  unfold write_to_file. rewrite Hw. cbn [snd store cache_file]. eexists. split; [done|].
  unfold body_lines. rewrite TextFacts.universal_newlines_id.
  2:{ apply Forall_chars_app. split; [by repeat constructor|by apply rows_no_return]. }
  rewrite readline_header. cbn [fst snd]. rewrite readlines_rows by done.
  split_and!; [done|by rewrite length_fmap, length_map_to_list|].
  intros line. rewrite list_elem_of_fmap. split.
  - intros ([a c] & -> & Hin%elem_of_map_to_list). by exists a, c.
  - intros (a & c & Hin & ->). exists (a, c). by rewrite elem_of_map_to_list.
Qed.

End Loading.

(** ** Documents that are no object, and restarts *)

Section Documents.

Context {pyfloat : Type}.
Variable B : builtins pyfloat.
Variable E : env pyfloat.

Abbreviation value := (pyval pyfloat).
Abbreviation resolver := (Trace pyfloat).

(** An address that is neither blacklisted nor cached costs one request. *)
Lemma get_lat_lon_asks a (self : resolver) w :
  a ∉ blacklisted_ips self →
  ip_locations self !! a = None →
  lookups_of a (history (get_lat_lon E a self w).2) = S (lookups_of a (history w)).
Proof.
  intros Hbl Hloc. unfold get_lat_lon. rewrite bool_decide_eq_false_2, Hloc by done.
  destruct (urlopen_json E (history w) a) as [e|j].
  - cbn [snd]. unfold logging. rewrite lookups_of_emit_quiet by done.
    apply lookups_of_emit_same.
  - destruct (inspect j) as [e|[|lat lon]]; cbn [snd].
    + unfold logging. rewrite lookups_of_emit_quiet by done. apply lookups_of_emit_same.
    + apply lookups_of_emit_same.
    + apply lookups_of_emit_same.
Qed.

(** X13. A document that is no object never reaches the cache.  A list
    or a string that lacks one of the two words blacklists the address
    without a warning; a list or a string that holds both, and any number,
    boolean or null, ends in a type error that is logged, and the address is
    not blacklisted. *)
Theorem document_that_is_no_object a j (self : resolver) w :
  a ∉ blacklisted_ips self →
  ip_locations self !! a = None →
  urlopen_json E (history w) a = Body j →
  is_object j = false →
  (get_lat_lon E a self w).1.1 = None
  ∧ ip_locations (get_lat_lon E a self w).1.2 = ip_locations self
  ∧ (if is_sequence j && negb (mentions "latitude" j && mentions "longitude" j)
     then a ∈ blacklisted_ips (get_lat_lon E a self w).1.2
          ∧ (get_lat_lon E a self w).2 = emit (Lookup a) w
     else blacklisted_ips (get_lat_lon E a self w).1.2 = blacklisted_ips self
          ∧ (get_lat_lon E a self w).2 = warned a TypeError w).
Proof.
  intros Hbl Hloc Hurl Hobj. unfold get_lat_lon.
  rewrite bool_decide_eq_false_2, Hloc, Hurl by done.
  destruct j as [| | | |s|l|d]; try discriminate Hobj; try (by split_and!).
  - unfold inspect, py_in. cbn [mbind exn_bind is_sequence mentions andb].
    destruct (Text.contains "latitude" s); cbn [negb andb]; [|split_and!; set_solver].
    destruct (Text.contains "longitude" s); cbn [negb andb]; [by split_and!|].
    split_and!; set_solver.
  - unfold inspect, py_in. cbn [mbind exn_bind is_sequence mentions andb].
    destruct (existsb (λ v, eq_str v "latitude") l); cbn [negb andb]; [|split_and!; set_solver].
    destruct (existsb (λ v, eq_str v "longitude") l); cbn [negb andb]; [by split_and!|].
    split_and!; set_solver.
Qed.

Hypothesis Htext : float_text_ok B.
Hypothesis Hfloat : float_round_trips B.

(** X14. The blacklist is not saved.  Take a resolver whose cached
    entries are all pairs of floats at addresses without comma and without
    line break, a cache file that can be written, and an address that is
    blacklisted and not cached: [get_lat_lon] answers it without a request,
    but after [write_to_file] and a [read_from_file] on a fresh resolver the
    first [get_lat_lon] asks the provider for it again.  The two facts about
    Python's floats, [float_text_ok] and [float_round_trips], are assumed. *)
Theorem blacklist_is_not_saved a (self : resolver) w :
  cache_writable w = true →
  (∀ b c, ip_locations self !! b = Some c → float_row (b, c)) →
  a ∈ blacklisted_ips self →
  ip_locations self !! a = None →
  get_lat_lon E a self w = (None, self, w)
  ∧ lookups_of a (history (get_lat_lon E a (restart B self w).1 (restart B self w).2).2)
    = S (lookups_of a (history w)).
Proof.
  intros Hw Hrows Hbl Hloc. split.
  { unfold get_lat_lon. by rewrite bool_decide_eq_true_2. }
  assert (ip_locations (restart B self w).1 !! a = None) as Hnone.
  { destruct (cache_readable w) eqn:Hr.
    - unfold restart. rewrite saved_rows_load; [done..|].
      apply Forall_forall. intros [b c] Hin. by apply Hrows, elem_of_map_to_list.
    - unfold restart. rewrite read_from_file_locations.
      unfold write_to_file. rewrite Hw. cbn [snd store cache_file cache_readable].
      by rewrite Hr. }
  rewrite get_lat_lon_asks.
  - unfold restart. rewrite read_from_file_lookups.
    unfold write_to_file. by rewrite Hw.
  - unfold restart. rewrite read_from_file_blacklist. set_solver.
  - done.
Qed.

End Documents.

(** ** The properties above on concrete runs *)

(** X4 on the three replies on the way to 10.0.0.4. *)
Lemma trace_requests_are_bounded_witness :
  (requests (history (trace Sample.B Runs.E3 "10.0.0.4" 3 60 2 true Trace_init
                        (Sample.world_with None)).2)
   ≤ requests (history (Sample.world_with None)) + length Runs.three_replies + 1)%nat.
Proof.
  apply (trace_requests_are_bounded Sample.B Runs.E3 "10.0.0.4" 3 60 2 true Trace_init
           (Sample.world_with None) IPv4Address Runs.three_replies).
  - reflexivity.
  - reflexivity.
Defined.

(** X5 on a resolver that has settled the three replying addresses. *)
Lemma trace_of_settled_addresses_is_silent_witness :
  (trace Sample.B Runs.E3 "10.0.0.4" 3 60 2 true MoreRuns.settled3 (Sample.world_with None)).1.2
  = MoreRuns.settled3
  ∧ requests (history (trace Sample.B Runs.E3 "10.0.0.4" 3 60 2 true MoreRuns.settled3
                         (Sample.world_with None)).2)
    = requests (history (Sample.world_with None)).
Proof.
  apply (trace_of_settled_addresses_is_silent Sample.B Runs.E3 "10.0.0.4" 3 60 2 true
           MoreRuns.settled3 (Sample.world_with None) IPv4Address Runs.three_replies).
  - reflexivity.
  - reflexivity.
  - intros a Ha. change (a ∈ ["10.0.0.4"; "10.0.0.1"; "10.0.0.7"; "10.0.0.4"]) in Ha.
    rewrite !elem_of_cons in Ha.
    destruct Ha as [->|[->|[->|[->|Ha%elem_of_nil]]]]; [| | | |done].
    + right. by eexists.
    + right. by eexists.
    + left. by apply elem_of_singleton.
    + right. by eexists.
Defined.

(** X8 on the three replies on the way to 10.0.0.4. *)
Lemma trace_record_is_aligned_witness :
  ∃ sg, (trace Sample.B Runs.E3 "10.0.0.4" 3 60 2 true Trace_init
           (Sample.world_with None)).1.1 = inr sg
        ∧ length (go.lat sg) = length (go.text sg)
        ∧ length (go.lon sg) = length (go.text sg)
        ∧ (length (go.text sg) ≤ length Runs.three_replies + 1)%nat
        ∧ (go.mode sg = "markers" ↔ length (go.text sg) = 1%nat).
Proof.
  apply (trace_record_is_aligned Sample.B Runs.E3 "10.0.0.4" 3 60 2 true Trace_init
           (Sample.world_with None) IPv4Address Runs.three_replies).
  - reflexivity.
  - reflexivity.
  - lia.
Defined.

(** X10 on the row for 10.0.0.2 of [stale_cache]. *)
Lemma loaded_entries_are_float_rows_witness :
  ip_locations Trace_init !! "10.0.0.2" = Some (PyFloat Sample.F40, PyFloat Sample.Fm74)
  ∨ float_row ("10.0.0.2", (PyFloat Sample.F40, PyFloat Sample.Fm74)).
Proof.
  apply (loaded_entries_are_float_rows Sample.B Trace_init
           (Sample.world_with (Some Runs.stale_cache))).
  by vm_compute.
Defined.


(** X12 on a row as [write_to_file] writes it. *)
Lemma row_needs_two_commas_witness :
  commas ("10.0.0.2, 40.0, -74.0" +:+ Sample.LF) = 2%nat
  ∧ (∃ rest, "10.0.0.2, 40.0, -74.0" +:+ Sample.LF = "10.0.0.2" +:+ String Text.comma rest)
  ∧ Forall (λ c, c ≠ Text.comma) (Text.chars "10.0.0.2")
  ∧ is_float (PyFloat Sample.F40) ∧ is_float (PyFloat Sample.Fm74).
Proof.
  apply (row_needs_two_commas Sample.B). reflexivity.
Defined.

(** X13 on a provider that answers with the list [["latitude"]]: the
    address is blacklisted and nothing is logged. *)
Lemma document_that_is_no_object_witness :
  (get_lat_lon MoreRuns.E_list "10.0.0.9" Trace_init (Sample.world_with None)).1.1 = None
  ∧ ip_locations (get_lat_lon MoreRuns.E_list "10.0.0.9" Trace_init (Sample.world_with None)).1.2
    = ip_locations Trace_init
  ∧ "10.0.0.9"
      ∈ blacklisted_ips
          (get_lat_lon MoreRuns.E_list "10.0.0.9" Trace_init (Sample.world_with None)).1.2
    ∧ (get_lat_lon MoreRuns.E_list "10.0.0.9" Trace_init (Sample.world_with None)).2
      = emit (Lookup "10.0.0.9") (Sample.world_with None).
Proof.
  apply (document_that_is_no_object MoreRuns.E_list "10.0.0.9" (PyList [PyStr "latitude"])
           Trace_init (Sample.world_with None)).
  - by intros ?%elem_of_empty.
  - reflexivity.
  - reflexivity.
  - reflexivity.
Defined.

(** X14 on a resolver that has blacklisted 10.0.0.2. *)
Lemma blacklist_is_not_saved_witness :
  get_lat_lon Runs.E0 "10.0.0.2" MoreRuns.banned2 (Sample.world_with None)
  = (None, MoreRuns.banned2, Sample.world_with None)
  ∧ lookups_of "10.0.0.2"
      (history (get_lat_lon Runs.E0 "10.0.0.2"
                  (restart Sample.B MoreRuns.banned2 (Sample.world_with None)).1
                  (restart Sample.B MoreRuns.banned2 (Sample.world_with None)).2).2)
    = S (lookups_of "10.0.0.2" (history (Sample.world_with None))).
Proof.
  apply (blacklist_is_not_saved Sample.B Runs.E0).
  - intros []; repeat constructor; done.
  - intros []; reflexivity.
  - reflexivity.
  - intros b c Hb. unfold MoreRuns.banned2 in Hb. cbn [ip_locations] in Hb.
    by rewrite lookup_empty in Hb.
  - by apply elem_of_singleton.
  - reflexivity.
Defined.

(** X15 on a resolver that holds one pair of floats. *)
Lemma saved_file_has_a_row_per_entry_witness :
  ∃ raw, cache_file (write_to_file Sample.B SaveRuns.known (Sample.world_with None)).2 = Some raw
         ∧ (Text.readline (Text.universal_newlines raw)).1 = cache_header
         ∧ length (body_lines raw) = size (ip_locations SaveRuns.known)
         ∧ ∀ line, line ∈ body_lines raw
                   ↔ ∃ a c, ip_locations SaveRuns.known !! a = Some c
                            ∧ line = cache_row Sample.B (a, c).
Proof.
  apply (saved_file_has_a_row_per_entry Sample.B).
  - intros []; repeat constructor; done.
  - reflexivity.
  - unfold SaveRuns.known. cbn [ip_locations].
    intros a c [[<- <-]|[_ H]]%lookup_insert_Some.
    + split_and!; [|done..]. repeat constructor; done.
    + by rewrite lookup_empty in H.
Defined.

(** X16 on a file with two rows for 10.0.0.1, loaded into a resolver that
    holds a third value for it. *)
Lemma last_row_wins_witness :
  ip_locations
    (read_from_file Sample.B SaveRuns.known (Sample.world_with (Some MoreRuns.twice_cache))).1
    !! "10.0.0.1"
  = Some (PyFloat Sample.F52_37, PyFloat Sample.F4_89).
Proof.
  apply (last_row_wins Sample.B SaveRuns.known (Sample.world_with (Some MoreRuns.twice_cache))
           MoreRuns.twice_cache [("10.0.0.1", (PyFloat Sample.F40, PyFloat Sample.Fm74))]
           "10.0.0.1" (PyFloat Sample.F52_37, PyFloat Sample.F4_89) []).
  - reflexivity.
  - reflexivity.
  - reflexivity.
  - apply not_elem_of_nil.
Defined.
